(** * fastq2fasta: a shallow embedding of [fastq2fasta.py] and its properties

    The script validates the FASTQ files named on the command line and
    converts each of them to FASTA.  Everything it does goes through the
    file system, the console and the process exit status, so the embedding
    threads an explicit [world] through a small state-and-exit monad.

    Modelling conventions.
    - A Python [str] is a [string]; [line[1:]], [startswith], [lower] and
      the regular expressions work on its characters, case folding is
      ASCII.
    - A regular file is read through Python's text layer, as [open] sets
      it up by default.  A [File] holds the characters that its bytes
      decode to; on reading, [\r\n] and [\r] are turned into [\n]
      (universal newlines), and iterating over the file yields its lines
      with their terminators.  A [Garbled] file holds bytes that the text
      layer cannot decode: it is read in pieces of 8192 bytes, the lines
      of the pieces before the one with the first such byte are served,
      and the read that needs that piece raises [UnicodeDecodeError].  One
      character is taken to be one byte.  On writing, a character is
      written as it is (the line separator of the platform is [\n]).
    - A path is the string given on the command line, looked up as it is:
      two strings are two entries of the file system.  Two spellings of one
      place ([a.fasta] and [./a.fasta]) and links are beyond that; the
      properties that need different strings to be different files are
      stated for plain names, names without a [/].  A file or directory
      carries the two permissions that [os.access] and [open] ask for.
    - An open file is known by its path, and what is read through it is
      what the file holds when it is read: a file that is truncated after
      it was opened for reading reads as empty.
    - [print] appends one event to the console transcript; [input] appends
      the prompt and consumes one answer of the operator.
    - [sys.exit] and exceptions end the computation they occur in; an
      exception can be caught, [sys.exit] cannot. *)

From Stdlib Require Import Ascii String.
From stdpp Require Import gmap strings list pretty.

#[local] Arguments String.append : simpl nomatch.

(** ** Python string operations *)

Definition LF : ascii := "010"%char.

(** [s[1:]] *)
Definition slice_from_1 (s : string) : string :=
  match s with
  | "" => ""
  | String _ s' => s'
  end.

(** [s.startswith(p)] *)
Definition startswith (s p : string) : bool := String.prefix p s.

(** ASCII case folding, as [str.lower] and [re.I] do on ASCII letters. *)
Definition lower_chr (c : ascii) : ascii :=
  let n := nat_of_ascii c in
  if (65 <=? n) && (n <=? 90) then ascii_of_nat (n + 32) else c.

Fixpoint lower (s : string) : string :=
  match s with
  | "" => ""
  | String c s' => String (lower_chr c) (lower s')
  end.

(** The lines of a text, each with its terminator; only the last one may
    lack it.  This is what [for line in fq] yields and what successive
    [readline] calls return. *)
Fixpoint py_lines (s : string) : list string :=
  match s with
  | "" => []
  | String c s' =>
      if Ascii.eqb c LF then String c "" :: py_lines s'
      else match py_lines s' with
           | [] => [String c ""]
           | l :: ls => String c l :: ls
           end
  end.

(** [''.join(ls)] *)
Definition join (ls : list string) : string := foldr String.append "" ls.

(** ** The text layer *)

Definition CR : ascii := "013"%char.

(** Universal newlines, the default of [open]: on reading, [\r\n] and a
    [\r] on its own become [\n]. *)
Fixpoint universal_newlines (s : string) : string :=
  match s with
  | "" => ""
  | String c s' =>
      if Ascii.eqb c CR then
        String LF
          match s' with
          | String c' s'' =>
              if Ascii.eqb c' LF then universal_newlines s'' else universal_newlines s'
          | "" => ""
          end
      else String c (universal_newlines s')
  end.

(** The text layer reads a file in pieces of this many bytes. *)
Definition chunk_size : nat := 8 * 1024.

(** [s[:n]] *)
Fixpoint slice_to (n : nat) (s : string) : string :=
  match n, s with
  | S n', String c s' => String c (slice_to n' s')
  | _, _ => ""
  end.

(** What has been decoded when the text layer fails on a byte that comes
    after the characters [before]: the pieces in front of the piece that
    holds the byte. *)
Definition decoded_pieces (before : string) : string :=
  slice_to (chunk_size * (String.length before / chunk_size)) before.

(** A [\r] at the end of what was decoded is kept back until the next
    piece shows whether a [\n] follows it. *)
Fixpoint hold_cr (s : string) : string :=
  match s with
  | "" => ""
  | String c "" => if Ascii.eqb c CR then "" else s
  | String c s' => String c (hold_cr s')
  end.

Fixpoint ends_in_newline (l : string) : bool :=
  match l with
  | "" => false
  | String c "" => Ascii.eqb c LF
  | String _ l' => ends_in_newline l'
  end.

(** The lines of [s] that are there with their terminator: all of them but
    a last one that is cut short. *)
Definition complete_lines (s : string) : list string :=
  filter (fun l => Is_true (ends_in_newline l)) (py_lines s).

(** ** The fragment of Python's [re] that the script uses *)

Inductive atom : Type :=
| Lit (c : ascii)              (* one literal character *)
| Group (alts : list string)   (* (a|b|...): literal alternatives, tried in order *)
| Dollar.                      (* $ *)

Definition regex : Type := list atom.

(** [flag_I] is [re.I]. *)
Definition chr_eq (flag_I : bool) (p c : ascii) : bool :=
  if flag_I then Ascii.eqb (lower_chr p) (lower_chr c) else Ascii.eqb p c.

Fixpoint match_literal (flag_I : bool) (lit s : string) : option string :=
  match lit, s with
  | "", _ => Some s
  | String p lit', String c s' =>
      if chr_eq flag_I p c then match_literal flag_I lit' s' else None
  | String _ _, "" => None
  end.

(** [$], in the words of the documentation of [re]: it matches the end of
    the string or just before the newline at the end of the string (and,
    only with [re.M], before every newline).  So [s] is at a [$] when
    nothing or exactly one newline is left of it. *)
Definition at_dollar (s : string) : bool :=
  match s with
  | "" => true
  | String c "" => Ascii.eqb c LF
  | _ => false
  end.

(** A match of [r] that starts at the head of [s]: the text left after it.
    Alternatives backtrack in order. *)
Fixpoint match_here (flag_I : bool) (r : regex) (s : string) : option string :=
  match r with
  | [] => Some s
  | Lit p :: r' =>
      match s with
      | String c s' => if chr_eq flag_I p c then match_here flag_I r' s' else None
      | "" => None
      end
  | Group alts :: r' =>
      (fix try (alts : list string) : option string :=
         match alts with
         | [] => None
         | a :: alts' =>
             match match_literal flag_I a s with
             | Some s' =>
                 match match_here flag_I r' s' with
                 | Some rest => Some rest
                 | None => try alts'
                 end
             | None => try alts'
             end
         end) alts
  | Dollar :: r' => if at_dollar s then match_here flag_I r' s else None
  end.

(** [re.search(r, s, flags)], as a truth value. *)
Fixpoint re_search (flag_I : bool) (r : regex) (s : string) : bool :=
  match match_here flag_I r s with
  | Some _ => true
  | None =>
      match s with
      | "" => false
      | String _ s' => re_search flag_I r s'
      end
  end.

(** [re.sub(r, repl, s)]: every leftmost non-overlapping match is replaced.
    [skip] counts the characters of [s] that the last match still covers. *)
Fixpoint re_sub_from (r : regex) (repl : string) (skip : nat) (s : string) : string :=
  match skip with
  | S k =>
      match s with
      | String _ s' => re_sub_from r repl k s'
      | "" => ""
      end
  | 0 =>
      match match_here false r s with
      | Some rest =>
          repl +:+
          match String.length s - String.length rest, s with
          | S k, String _ s' => re_sub_from r repl k s'
          | 0, String c s' => String c (re_sub_from r repl 0 s')
          | _, "" => ""
          end
      | None =>
          match s with
          | String c s' => String c (re_sub_from r repl 0 s')
          | "" => ""
          end
      end
  end.

Definition re_sub (r : regex) (repl s : string) : string := re_sub_from r repl 0 s.

(** [r'\.(fastq|fq)$'] *)
Definition fastq_ext_re : regex := [Lit "."; Group ["fastq"; "fq"]; Dollar].

(** [r'\.fastq$'] *)
Definition fastq_suffix_re : regex :=
  [Lit "."; Lit "f"; Lit "a"; Lit "s"; Lit "t"; Lit "q"; Dollar].

(** [out_file = re.sub(r'\.fastq$', '.fasta', file)] *)
Definition out_file_of (file : string) : string :=
  re_sub fastq_suffix_re ".fasta" file.

(** ** Paths, permissions and the file system *)

Definition is_sep (c : ascii) : bool := Ascii.eqb c "/"%char.

Fixpoint has_sep (s : string) : bool :=
  match s with
  | "" => false
  | String c s' => is_sep c || has_sep s'
  end.

Fixpoint all_sep (s : string) : bool :=
  match s with
  | "" => true
  | String c s' => is_sep c && all_sep s'
  end.

(** [p[:p.rfind('/') + 1]] *)
Fixpoint upto_last_sep (p : string) : string :=
  match p with
  | "" => ""
  | String c p' => if has_sep p then String c (upto_last_sep p') else ""
  end.

(** [head.rstrip('/')] *)
Fixpoint rstrip_sep (s : string) : string :=
  match s with
  | "" => ""
  | String c s' =>
      match rstrip_sep s' with
      | "" => if is_sep c then "" else String c ""
      | r => String c r
      end
  end.

(** [os.path.dirname] of [posixpath] *)
Definition os_path_dirname (p : string) : string :=
  let head := upto_last_sep p in
  if negb (String.eqb head "") && negb (all_sep head) then rstrip_sep head else head.

(** [x or d] on strings *)
Definition str_or (x d : string) : string := if String.eqb x "" then d else x.

Record perms : Type := Perms { can_read : bool; can_write : bool }.

(** [Garbled m before after]: a regular file with a byte that the text
    layer cannot decode, between the characters [before] and whatever
    comes [after] it. *)
Inductive node : Type :=
| File (m : perms) (data : string)
| Dir (m : perms)
| Garbled (m : perms) (before after : string).

Definition node_perms (n : node) : perms :=
  match n with
  | File m _ => m
  | Dir m => m
  | Garbled m _ _ => m
  end.

Definition is_regular (n : node) : bool :=
  match n with
  | Dir _ => false
  | _ => true
  end.

(** The size in bytes. *)
Definition size (n : node) : nat :=
  match n with
  | File _ data => String.length data
  | Dir _ => 0
  | Garbled _ before after => String.length before + 1 + String.length after
  end.

(** The lines that reading serves, from the start of the file to its end
    or to the read that fails. *)
Definition lines_served (n : node) : list string :=
  match n with
  | File _ data => py_lines (universal_newlines data)
  | Dir _ => []
  | Garbled _ before _ =>
      complete_lines (universal_newlines (hold_cr (decoded_pieces before)))
  end.

(** Reading gets to the end of the file. *)
Definition reads_through (n : node) : bool :=
  match n with
  | Garbled _ _ _ => false
  | _ => true
  end.

(** ** The world the script runs in *)

Inductive OSError : Type :=
| FileNotFoundError (p : string)
| PermissionError (p : string)
| IsADirectoryError (p : string)
| NotADirectoryError (p : string).

Inductive exn : Type :=
| EOFError
| OSErr (e : OSError)
| UnicodeDecodeError.

(** What reaches the console: a printed line, a printed line that ends in
    the text of an exception, and the prompt of [input]. *)
Inductive event : Type :=
| Print (s : string)
| PrintExc (s : string) (e : exn)
| Ask (prompt : string).

Record world : Type := World {
  fs : gmap string node;      (* path -> file or directory *)
  stdin : list string;        (* the answers the operator will type *)
  stdout : list event         (* the console transcript, oldest first *)
}.

Inductive outcome (A : Type) : Type :=
| Return (a : A)
| SysExit (code : nat)        (* sys.exit(code) *)
| Raise (e : exn).            (* an exception on its way up *)
Arguments Return {A} a.
Arguments SysExit {A} code.
Arguments Raise {A} e.

Definition M (A : Type) : Type := world -> outcome A * world.

#[export] Instance M_ret : MRet M := fun A a w => (Return a, w).

#[export] Instance M_bind : MBind M := fun A B f m w =>
  match m w with
  | (Return a, w') => f a w'
  | (SysExit c, w') => (SysExit c, w')
  | (Raise e, w') => (Raise e, w')
  end.

Notation "m1 ;; m2" := (mbind (fun _ : unit => m2) m1)
  (at level 100, m2 at level 200, right associativity, only parsing).

Definition set_fs (w : world) (f : gmap string node) : world :=
  World f (stdin w) (stdout w).

Definition emit (e : event) : M unit :=
  fun w => (Return (), World (fs w) (stdin w) (stdout w ++ [e])).

Definition print (s : string) : M unit := emit (Print s).
Definition print_exc (s : string) (e : exn) : M unit := emit (PrintExc s e).

Definition sys_exit {A : Type} (code : nat) : M A := fun w => (SysExit code, w).
Definition raise {A : Type} (e : exn) : M A := fun w => (Raise e, w).

(** [input(prompt)]: end of input raises [EOFError]. *)
Definition input (prompt : string) : M string :=
  fun w =>
    let w' := World (fs w) (stdin w) (stdout w ++ [Ask prompt]) in
    match stdin w with
    | [] => (Raise EOFError, w')
    | answer :: rest => (Return answer, World (fs w) rest (stdout w'))
    end.

(** [try: m except Exception as e: h e]; [SystemExit] is not an
    [Exception] and passes through. *)
Definition try_except {A : Type} (m : M A) (h : exn -> M A) : M A :=
  fun w =>
    match m w with
    | (Raise e, w') => h e w'
    | r => r
    end.

Definition when (b : bool) (m : M unit) : M unit := if b then m else mret ().

(** [for x in xs: body x] *)
Fixpoint for_each {A : Type} (xs : list A) (body : A -> M unit) : M unit :=
  match xs with
  | [] => mret ()
  | x :: xs' => body x ;; for_each xs' body
  end.

(** *** [os] and [open] *)

Definition isfile (f : gmap string node) (p : string) : bool :=
  match f !! p with
  | Some n => is_regular n
  | None => false
  end.

Definition access (want : perms -> bool) (f : gmap string node) (p : string) : bool :=
  match f !! p with
  | Some n => want (node_perms n)
  | None => false
  end.

Definition os_path_isfile (p : string) : M bool := fun w => (Return (isfile (fs w) p), w).
Definition os_access_R_OK (p : string) : M bool := fun w => (Return (access can_read (fs w) p), w).
Definition os_access_W_OK (p : string) : M bool := fun w => (Return (access can_write (fs w) p), w).

(** [os.path.getsize]; the script asks for it after [isfile] only, the
    size of a directory is left at 0. *)
Definition os_path_getsize (p : string) : M nat :=
  fun w =>
    match fs w !! p with
    | Some n => (Return (size n), w)
    | None => (Raise (OSErr (FileNotFoundError p)), w)
    end.

(** [open(p, 'r')]: the handle is the path; what is read through it is
    what the file holds at the time of reading. *)
Definition open_r (p : string) : M string :=
  fun w =>
    match fs w !! p with
    | Some n =>
        if is_regular n then
          if can_read (node_perms n) then (Return p, w)
          else (Raise (OSErr (PermissionError p)), w)
        else (Raise (OSErr (IsADirectoryError p)), w)
    | None => (Raise (OSErr (FileNotFoundError p)), w)
    end.

(** [open(p, 'w')]: an existing file is truncated at once, a missing one
    is created in its directory. *)
Definition open_w (p : string) : M string :=
  fun w =>
    match fs w !! p with
    | Some n =>
        if is_regular n then
          if can_write (node_perms n)
          then (Return p, set_fs w (<[p := File (node_perms n) ""]> (fs w)))
          else (Raise (OSErr (PermissionError p)), w)
        else (Raise (OSErr (IsADirectoryError p)), w)
    | None =>
        match fs w !! str_or (os_path_dirname p) "." with
        | Some d =>
            if is_regular d then (Raise (OSErr (NotADirectoryError p)), w)
            else if can_write (node_perms d)
            then (Return p, set_fs w (<[p := File (Perms true true) ""]> (fs w)))
            else (Raise (OSErr (PermissionError p)), w)
        | None => (Raise (OSErr (FileNotFoundError p)), w)
        end
    end.

(** All the lines that reading serves through a handle that nothing was
    read from yet: the lines of what the file holds now, up to its end or
    to the read that fails. *)
Definition readlines (fq : string) : M (list string) :=
  fun w =>
    match fs w !! fq with
    | Some n => (Return (lines_served n), w)
    | None => (Return [], w)
    end.

(** The read that comes after the last line served: it finds the end of
    the file, or raises on the bytes that cannot be decoded. *)
Definition read_on (fq : string) : M unit :=
  fun w =>
    match fs w !! fq with
    | Some n => if reads_through n then (Return (), w) else (Raise UnicodeDecodeError, w)
    | None => (Return (), w)
    end.

(** [fq.readline()] on the lines that remain: the next line, or [''] at the
    end of the file. *)
Definition readline (fq : string) (remaining : list string) : M (string * list string) :=
  match remaining with
  | [] => read_on fq ;; mret ("", [])
  | l :: rest => mret (l, rest)
  end.

(** [with ...: body]: the files are closed however the body ends. *)
Definition with_close {A : Type} (body : M A) (close : M unit) : M A :=
  fun w =>
    match body w with
    | (Return a, w') => (close ;; mret a) w'
    | (SysExit code, w') => (close ;; sys_exit code) w'
    | (Raise e, w') => (close ;; raise e) w'
    end.

(** Closing a written file flushes what was written to it. *)
Definition flush_close (fa : string) (text : string) : M unit :=
  fun w =>
    match fs w !! fa with
    | Some (File m data) => (Return (), set_fs w (<[fa := File m (data +:+ text)]> (fs w)))
    | _ => (Return (), w)
    end.

(** ** The script *)

(** [not s] on a string *)
Definition is_empty (s : string) : bool := String.eqb s "".

(** The open file [fq] of the sniff test is threaded as the lines that it
    has still to serve. *)
Definition validate_fastq_format (file : string) : M bool :=
  try_except
    (fq ← open_r file;
     remaining ← readlines fq;
     '(line0, remaining) ← readline fq remaining;
     '(line1, remaining) ← readline fq remaining;
     '(line2, remaining) ← readline fq remaining;
     '(line3, remaining) ← readline fq remaining;
     if is_empty line0 || is_empty line1 || is_empty line2 || is_empty line3 then
       print ("Error: " +:+ file +:+ " has less than 4 lines (incomplete FASTQ).") ;;
       mret false
     else if negb (startswith line0 "@") then
       print ("Error: " +:+ file +:+ " is not valid FASTQ (Header should start with @).") ;;
       mret false
     else if negb (startswith line2 "+") then
       print ("Error: " +:+ file +:+ " is not valid FASTQ (Third line should start with +).") ;;
       mret false
     else mret true)
    (fun e =>
       print_exc ("Error validating " +:+ file +:+ ": ") e ;;
       mret false).

(** The body of the loop of [argument_check]. *)
Definition check_file (file : string) : M unit :=
  found ← os_path_isfile file;
  when (negb found)
    (print ("Error: " +:+ file +:+ " does not exist.") ;; sys_exit 1) ;;
  readable ← os_access_R_OK file;
  when (negb readable)
    (print ("Error: " +:+ file +:+ " exists but cannot be read.") ;; sys_exit 1) ;;
  when (negb (re_search true fastq_ext_re file))
    (print ("Error: " +:+ file +:+ " does not have a valid '.fastq' or '.fq' extension.") ;;
     sys_exit 1) ;;
  size ← os_path_getsize file;
  when (size =? 0)
    (print ("Error: " +:+ file +:+ " is empty.") ;; sys_exit 1) ;;
  valid ← validate_fastq_format file;
  when (negb valid) (sys_exit 1).

Definition argument_check (files : list string) : M bool :=
  when (bool_decide (files = []))
    (print "Usage: python3 fastq2fasta.py <file1.fastq> <file2.fastq> ..." ;; sys_exit 1) ;;
  for_each files check_file ;;
  mret true.

(** The two branches of the loop body that write, named as the comments of
    the script name them.  A written text is kept with the branch that
    wrote it; the file receives the texts alone. *)
Inductive role : Type := Header | Sequence.

#[export] Instance role_eq_dec : EqDecision role.
Proof. solve_decision. Defined.

Record loop_state : Type := LoopState {
  fa : list (role * string);   (* the arguments of [fa.write], in order *)
  line_num : nat
}.

Definition loop_body (st : loop_state) (line : string) : loop_state :=
  let written :=
    if (line_num st mod 4 =? 0) then fa st ++ [(Header, ">" +:+ slice_from_1 line)]
    else if (line_num st mod 4 =? 1) then fa st ++ [(Sequence, line)]
    else fa st in
  LoopState written (line_num st + 1).

(** [line_num = 0; for line in fq: ...] *)
Definition convert_lines (lines : list string) : loop_state :=
  fold_left loop_body lines (LoopState [] 0).

Definition written_text (st : loop_state) : string := join (map snd (fa st)).

(** The [with] statement: both files are opened before the first line is
    read; the output receives what was written when it is closed, also
    when the loop ends in an exception.  The loop reads the input as it is
    once both files are open: while it runs nothing else changes that
    file, since the output is either another file or, truncated, this very
    file with no line left to read.  The loop ends with the read that
    finds no further line. *)
Definition convert (file out_file : string) : M unit :=
  fq ← open_r file;
  fa_handle ← open_w out_file;
  lines ← readlines fq;
  let st := convert_lines lines in
  with_close
    (read_on fq ;;
     when (negb (line_num st mod 4 =? 0))
       (print ("Warning: " +:+ file +:+ " had incomplete records (" +:+ pretty (line_num st) +:+ " lines).")))
    (flush_close fa_handle (written_text st)).

Definition affirmative (answer : string) : bool :=
  bool_decide (lower answer ∈ ["y"; "yes"]).

(** The body of the loop of [fastq_to_fasta], in two parts: from the
    directory check on, and the whole with the overwrite guard first. *)
Definition write_output (file out_file : string) : M unit :=
  let out_dir := str_or (os_path_dirname out_file) "." in
  writable ← os_access_W_OK out_dir;
  when (negb writable)
    (print ("Error: Cannot write to directory " +:+ out_dir) ;; sys_exit 1) ;;
  try_except
    (convert file out_file ;;
     print ("  ✓ " +:+ file +:+ " → " +:+ out_file))
    (fun e =>
       match e with
       | OSErr _ =>
           print_exc ("Error reading/writing " +:+ file +:+ ": ") e ;; sys_exit 1
       | _ =>
           print_exc ("Unexpected error processing " +:+ file +:+ ": ") e ;; sys_exit 1
       end).

Definition convert_file (file : string) : M unit :=
  let out_file := re_sub fastq_suffix_re ".fasta" file in
  present ← os_path_isfile out_file;
  when present
    (print ("Warning: " +:+ out_file +:+ " already exists and will be overwritten.") ;;
     answer ← input "Do you want to continue? (y/n): ";
     when (negb (affirmative answer))
       (print "Operation cancelled by user." ;; sys_exit 0)) ;;
  write_output file out_file.

Definition fastq_to_fasta (in_files : list string) : M unit :=
  for_each in_files convert_file.

Definition banner : list event :=
  [Print ""; Print "─────────────────────────────────────────";
   Print "        fastq2fasta converter";
   Print "─────────────────────────────────────────"; Print ""].

Definition closing : list event :=
  [Print ""; Print "·········································";
   Print " All conversions completed successfully!";
   Print "─────────────────────────────────────────"].

Definition main (files : list string) : M unit :=
  for_each banner emit ;;
  _ ← argument_check files;
  fastq_to_fasta files ;;
  for_each closing emit.

(** The exit status of the process: 0 at the end of the script, the
    argument of [sys.exit], and 1 after an uncaught exception. *)
Definition exit_status {A : Type} (o : outcome A) : nat :=
  match o with
  | Return _ => 0
  | SysExit code => code
  | Raise _ => 1
  end.

Definition run (files : list string) (w : world) : nat * world :=
  let '(o, w') := main files w in (exit_status o, w').

(** ** Vocabulary of the properties *)

Definition nl : string := String LF "".

(** [s.endswith(suffix)] *)
Fixpoint endswith (s suffix : string) : bool :=
  if String.eqb s suffix then true
  else match s with
       | "" => false
       | String _ s' => endswith s' suffix
       end.

(** A line that ends in its only newline. *)
Fixpoint terminated (l : string) : bool :=
  match l with
  | "" => false
  | String c l' => if Ascii.eqb c LF then is_empty l' else terminated l'
  end.

(** FASTQ as the header of the script describes it: records of four lines,
    the first of which starts with [@] and the third with [+]. *)
Fixpoint well_formed_fastq (lines : list string) : bool :=
  match lines with
  | [] => true
  | header :: _ :: separator :: _ :: rest =>
      startswith header "@" && startswith separator "+" && well_formed_fastq rest
  | _ => false
  end.

(** The frames of a file: groups of four consecutive lines, the last one
    possibly shorter. *)
Fixpoint frames (lines : list string) : list (list string) :=
  match lines with
  | [] => []
  | a :: b :: c :: d :: rest => [a; b; c; d] :: frames rest
  | partial => [partial]
  end.

(** What the loop writes for a frame: its header with [>] in place of the
    first character, and its sequence line. *)
Definition fasta_of_frame (frame : list string) : list (role * string) :=
  match frame with
  | [] => []
  | [header] => [(Header, ">" +:+ slice_from_1 header)]
  | header :: sequence :: _ => [(Header, ">" +:+ slice_from_1 header); (Sequence, sequence)]
  end.

(** The FASTA lines and text of a list of FASTQ lines, frame by frame. *)
Definition fasta_lines (lines : list string) : list string :=
  map snd (frames lines ≫= fasta_of_frame).

Definition fasta_of (lines : list string) : string := join (fasta_lines lines).

(** Every line but the last one ends in its newline. *)
Definition terminated_lines (lines : list string) : Prop :=
  forall i l, lines !! i = Some l -> S i < length lines -> terminated l = true.

(** The lines at the positions congruent to [r] modulo 4, in order. *)
Definition lines_at (r : nat) (lines : list string) : list string :=
  (imap pair lines) ≫= (fun '(i, l) => if decide (i mod 4 = r) then [l] else []).

(** The texts that a branch of the loop wrote, in order. *)
Definition written_by (who : role) (st : loop_state) : list string :=
  fa st ≫= (fun '(r, text) => if decide (r = who) then [text] else []).

(** The text of a regular file, [None] for anything else. *)
Definition file_text (f : gmap string node) (p : string) : option string :=
  match f !! p with
  | Some (File _ text) => Some text
  | _ => None
  end.

(** The rules of the validator, in the order in which it checks them. *)
Inductive rule : Type :=
| NotFound
| Unreadable
| InvalidExtension
| EmptyFile
| IncompleteRecord
| MissingHeaderMarker
| MissingSeparatorMarker.

Definition diagnostic (file : string) (r : rule) : string :=
  match r with
  | NotFound => "Error: " +:+ file +:+ " does not exist."
  | Unreadable => "Error: " +:+ file +:+ " exists but cannot be read."
  | InvalidExtension =>
      "Error: " +:+ file +:+ " does not have a valid '.fastq' or '.fq' extension."
  | EmptyFile => "Error: " +:+ file +:+ " is empty."
  | IncompleteRecord => "Error: " +:+ file +:+ " has less than 4 lines (incomplete FASTQ)."
  | MissingHeaderMarker =>
      "Error: " +:+ file +:+ " is not valid FASTQ (Header should start with @)."
  | MissingSeparatorMarker =>
      "Error: " +:+ file +:+ " is not valid FASTQ (Third line should start with +)."
  end.

(** [lines] has a line at position [i], and [b] tells whether that line
    starts with [marker]. *)
Definition line_starts (lines : list string) (i : nat) (marker : string) (b : bool) : Prop :=
  exists l, lines !! i = Some l /\ startswith l marker = b.

(** The text that the four [readline] calls of the sniff test are served
    from, when none of them raises: the text of a file as it is read, and
    of a file that cannot be decoded the lines served, if there are four. *)
Definition sniffed (f : gmap string node) (p : string) : option string :=
  match f !! p with
  | Some (File _ data) => Some (universal_newlines data)
  | Some (Garbled m before after) =>
      let served := lines_served (Garbled m before after) in
      if 4 <=? length served then Some (join served) else None
  | _ => None
  end.

(** [file] is a readable, non-empty regular file with an accepted
    extension, and is read as [text]: the checks that come before the
    sniff test. *)
Definition presentable (f : gmap string node) (file text : string) : Prop :=
  isfile f file = true /\ access can_read f file = true /\
  re_search true fastq_ext_re file = true /\
  sniffed f file = Some text /\ text <> "".

(** [violates f file r]: in file system [f], rule [r] is the first rule
    that [file] breaks. *)
Definition violates (f : gmap string node) (file : string) (r : rule) : Prop :=
  match r with
  | NotFound => isfile f file = false
  | Unreadable => isfile f file = true /\ access can_read f file = false
  | InvalidExtension =>
      isfile f file = true /\ access can_read f file = true /\
      re_search true fastq_ext_re file = false
  | EmptyFile =>
      isfile f file = true /\ access can_read f file = true /\
      re_search true fastq_ext_re file = true /\ file_text f file = Some ""
  | IncompleteRecord =>
      exists text, presentable f file text /\ length (py_lines text) < 4
  | MissingHeaderMarker =>
      exists text, presentable f file text /\ 4 <= length (py_lines text) /\
        line_starts (py_lines text) 0 "@" false
  | MissingSeparatorMarker =>
      exists text, presentable f file text /\ 4 <= length (py_lines text) /\
        line_starts (py_lines text) 0 "@" true /\
        line_starts (py_lines text) 2 "+" false
  end.

(** [file] breaks no rule. *)
Definition accepted (f : gmap string node) (file : string) : Prop :=
  exists text, presentable f file text /\ 4 <= length (py_lines text) /\
    line_starts (py_lines text) 0 "@" true /\
    line_starts (py_lines text) 2 "+" true.

(** [file] gets to the sniff test and a [readline] of the test raises: the
    text layer fails before it has served four lines. *)
Definition unsniffable (f : gmap string node) (file : string) : Prop :=
  isfile f file = true /\ access can_read f file = true /\
  re_search true fastq_ext_re file = true /\
  exists n, f !! file = Some n /\ reads_through n = false /\ length (lines_served n) < 4.

(** The file as its bytes have it, the byte that cannot be decoded shown
    as the byte 255. *)
Definition content (n : node) : string :=
  match n with
  | File _ data => data
  | Dir _ => ""
  | Garbled _ before after => before +:+ String "255"%char after
  end.

(** The answers that read [y] or [yes] when case is ignored. *)
Definition yes_answers : list string :=
  ["y"; "Y"; "yes"; "yeS"; "yEs"; "yES"; "Yes"; "YeS"; "YEs"; "YES"].

(** The lines that the loop of the converter reads: the output is opened,
    and an existing one truncated, before the first line is read. *)
Definition input_lines (f : gmap string node) (file out_file : string) : list string :=
  if decide (out_file = file) then []
  else match f !! file with
       | Some n => lines_served n
       | None => []
       end.

(** The loop of the converter reads to the end of the input. *)
Definition input_read_through (f : gmap string node) (file out_file : string) : bool :=
  if decide (out_file = file) then true
  else match f !! file with
       | Some n => reads_through n
       | None => true
       end.

Definition out_dir_of (out_file : string) : string :=
  str_or (os_path_dirname out_file) ".".

(** [open(p, 'w')] succeeds: [p] is a file that may be written, or is
    missing from a directory that may be written. *)
Definition writable_target (f : gmap string node) (p : string) : bool :=
  match f !! p with
  | Some n => is_regular n && can_write (node_perms n)
  | None =>
      match f !! out_dir_of p with
      | Some d => negb (is_regular d) && can_write (node_perms d)
      | None => false
      end
  end.

(** The permissions of the output once it is open: its own if it
    exists, those of a new file otherwise. *)
Definition out_perms (f : gmap string node) (out_file : string) : perms :=
  match f !! out_file with
  | Some n => if is_regular n then node_perms n else Perms true true
  | None => Perms true true
  end.

(** The overwrite guard lets the step go on: there is no output yet, or
    the operator answers [y] or [yes]. *)
Definition proceeds (w : world) (out_file : string) : Prop :=
  isfile (fs w) out_file = false \/
  exists answer rest, stdin w = answer :: rest /\ answer ∈ yes_answers.


(** The text has a [\r]. *)
Fixpoint has_cr (s : string) : bool :=
  match s with
  | "" => false
  | String c s' => Ascii.eqb c CR || has_cr s'
  end.

(** [say w es]: the world [w] after the events [es] went to the console. *)
Definition say (w : world) (es : list event) : world :=
  World (fs w) (stdin w) (stdout w ++ es).

Definition overwrite_warning (out_file : string) : list event :=
  [Print ("Warning: " +:+ out_file +:+ " already exists and will be overwritten.");
   Ask "Do you want to continue? (y/n): "].

Definition incomplete_warning (file : string) (n : nat) : event :=
  Print ("Warning: " +:+ file +:+ " had incomplete records (" +:+ pretty n +:+ " lines).").

Definition converted_message (file out_file : string) : event :=
  Print ("  ✓ " +:+ file +:+ " → " +:+ out_file).

(** The world [w] with other answers of the operator. *)
Definition with_stdin (w : world) (answers : list string) : world :=
  World (fs w) answers (stdout w).

(** [m] neither reads the answers of the operator nor depends on them. *)
Definition unattended {A : Type} (m : M A) : Prop :=
  forall w answers, m (with_stdin w answers) = ((m w).1, with_stdin (m w).2 answers).


(** ** Sample files and worlds *)

Definition rw : perms := Perms true true.
Definition r_only : perms := Perms true false.

(** One record, and one record followed by a stray header line. *)
Definition read1 : string :=
  "@r1" +:+ nl +:+ "ACGT" +:+ nl +:+ "+" +:+ nl +:+ "FFFF" +:+ nl.

Definition read1_stray : string := read1 +:+ "@r2" +:+ nl.

(** A record whose third line lacks the [+]. *)
Definition unmarked : string :=
  "@r1" +:+ nl +:+ "ACGT" +:+ nl +:+ "-" +:+ nl +:+ "FFFF" +:+ nl.

Definition home : gmap string node :=
  {[ "." := Dir rw;
     "a.fastq" := File rw read1;
     "b.fastq" := File rw read1_stray;
     "bad.fastq" := File rw unmarked;
     "sample.fq" := File rw read1 ]}.

(** The output of [a.fastq] is there already. *)
Definition crowded : gmap string node :=
  {[ "." := Dir rw; "a.fastq" := File rw read1; "a.fasta" := File rw "old" ]}.

(** The same in a directory that cannot be written. *)
Definition locked : gmap string node :=
  {[ "." := Dir r_only; "a.fastq" := File rw read1; "a.fasta" := File rw "old" ]}.

(** The same record with the line ends of DOS. *)
Definition read1_dos : string :=
  "@r1" +:+ String CR nl +:+ "ACGT" +:+ String CR nl +:+
  "+" +:+ String CR nl +:+ "FFFF" +:+ String CR nl.

Definition dos : gmap string node :=
  {[ "." := Dir rw; "w.fastq" := File rw read1_dos ]}.

(** [n] times the character [c]. *)
Fixpoint fill (n : nat) (c : ascii) : string :=
  match n with
  | 0 => ""
  | S n' => String c (fill n' c)
  end.

(** A file of four lines with a byte in its last line that cannot be
    decoded, and a file of five lines whose fifth line is longer than a
    piece of the text layer and ends in such a byte. *)
Definition torn : node :=
  Garbled rw ("@r1" +:+ nl +:+ "ACGT" +:+ nl +:+ "+" +:+ nl +:+ "FF") ("FF" +:+ nl).

Definition long_tail : node := Garbled rw (read1 +:+ "@r2" +:+ fill chunk_size "A") nl.

Definition mixed : gmap string node :=
  {[ "." := Dir rw; "t.fastq" := torn; "l.fastq" := long_tail; "s.fq" := File rw read1_stray ]}.

(** A file whose name ends in a newline. *)
Definition odd_name : string := "a.fastq" +:+ nl.

Definition odd_home : gmap string node :=
  {[ "." := Dir rw; odd_name := File rw read1 ]}.

(** The output of [a.fastq] is there and cannot be written. *)
Definition protected : gmap string node :=
  {[ "." := Dir rw; "a.fastq" := File rw read1; "a.fasta" := File r_only "old" ]}.

(** * Properties *)

(** One step of a run: a check whose result [H] gives, and the branch
    that the script takes on it. *)
Ltac step H := rewrite H; cbn [negb when mret M_ret].

(** ** Strings *)

Lemma str_length_app (s t : string) :
  String.length (s +:+ t) = String.length s + String.length t.
Proof. induction s as [|c s IH]; simpl; [done | by rewrite IH]. Qed.

Lemma str_app_nil_r (s : string) : s +:+ "" = s.
Proof. induction s as [|c s IH]; simpl; [done | by rewrite IH]. Qed.

Lemma str_app_assoc (s t u : string) : (s +:+ t) +:+ u = s +:+ t +:+ u.
Proof. induction s as [|c s IH]; simpl; [done | by rewrite IH]. Qed.

Lemma endswith_unfold (s suffix : string) :
  endswith s suffix =
  if String.eqb s suffix then true
  else match s with
       | "" => false
       | String _ s' => endswith s' suffix
       end.
Proof. by destruct s. Qed.

Lemma endswith_cons (c : ascii) (s suffix : string) :
  endswith (String c s) suffix = false -> endswith s suffix = false.
Proof. rewrite (endswith_unfold (String c s)). by destruct (String.eqb _ _). Qed.

Lemma endswith_app (stem suffix : string) : endswith (stem +:+ suffix) suffix = true.
Proof.
  induction stem as [|c stem IH].
  - rewrite endswith_unfold. by rewrite String.eqb_refl.
  - change (String c stem +:+ suffix) with (String c (stem +:+ suffix)).
    rewrite endswith_unfold, IH. by destruct (String.eqb _ _).
Qed.

Lemma endswith_iff (s suffix : string) :
  endswith s suffix = true <-> exists stem, s = stem +:+ suffix.
Proof.
  split.
  - induction s as [|c s IH]; rewrite endswith_unfold.
    + destruct (String.eqb_spec "" suffix) as [<-|]; [by exists "" | done].
    + destruct (String.eqb_spec (String c s) suffix) as [<-|_]; [by exists "" |].
      intros [stem ->]%IH. by exists (String c stem).
  - intros [stem ->]. apply endswith_app.
Qed.

Lemma startswith_char (p : ascii) (l : string) :
  startswith l (String p "") = true <-> exists l', l = String p l'.
Proof.
  unfold startswith. destruct l as [|c l].
  - split; [done | by intros [? [=]]].
  - change (String.prefix (String p "") (String c l))
      with (if Ascii.ascii_dec p c then String.prefix "" l else false).
    destruct (Ascii.ascii_dec p c) as [<-|Hne].
    + split; [eauto | by destruct l].
    + split; [done | intros [? [= <- _]]; done].
Qed.

Lemma is_empty_false (l : string) : l <> "" -> is_empty l = false.
Proof. by destruct l. Qed.

Lemma length_zero_iff (s : string) : (String.length s =? 0) = true <-> s = "".
Proof. by destruct s. Qed.

Lemma join_cons (l : string) (ls : list string) : join (l :: ls) = l +:+ join ls.
Proof. done. Qed.

Lemma join_app (ls1 ls2 : list string) : join (ls1 ++ ls2) = join ls1 +:+ join ls2.
Proof.
  induction ls1 as [|l ls1 IH]; [done |].
  cbn [app]. by rewrite !join_cons, IH, str_app_assoc.
Qed.

(** ** The regular expression of the output name *)

Lemma match_here_Lit (p : ascii) (r : regex) (s rest : string) :
  match_here false (Lit p :: r) s = Some rest ->
  exists s', s = String p s' /\ match_here false r s' = Some rest.
Proof.
  destruct s as [|c s]; simpl; [done |]. unfold chr_eq.
  destruct (Ascii.eqb_spec p c) as [<-|]; [eauto | done].
Qed.

Lemma match_here_Dollar (s rest : string) :
  match_here false [Dollar] s = Some rest ->
  rest = s /\ (s = "" \/ s = nl).
Proof.
  simpl. destruct s as [|c [|? ?]]; simpl; [| | done].
  - intros [= <-]. auto.
  - destruct (Ascii.eqb_spec c LF) as [->|]; [| done]. intros [= <-]. auto.
Qed.

Lemma fastq_suffix_match (s rest : string) :
  match_here false fastq_suffix_re s = Some rest ->
  (s = ".fastq" /\ rest = "") \/ (s = ".fastq" +:+ nl /\ rest = nl).
Proof.
  unfold fastq_suffix_re. intros H.
  do 6 (apply match_here_Lit in H as (? & -> & H)).
  apply match_here_Dollar in H as [-> [->| ->]]; auto.
Qed.

Lemma re_sub_cons_no_match (r : regex) (repl : string) (c : ascii) (s : string) :
  match_here false r (String c s) = None ->
  re_sub r repl (String c s) = String c (re_sub r repl s).
Proof. unfold re_sub. simpl. by intros ->. Qed.

Lemma out_file_of_fastq (stem : string) :
  out_file_of (stem +:+ ".fastq") = stem +:+ ".fasta".
Proof.
  unfold out_file_of. induction stem as [|c stem IH]; [done |].
  change (String c stem +:+ ".fastq") with (String c (stem +:+ ".fastq")).
  destruct (match_here false fastq_suffix_re (String c (stem +:+ ".fastq"))) as [rest|] eqn:E.
  - apply fastq_suffix_match in E as [[E _]|[E _]].
    + apply (f_equal String.length) in E. simpl in E. rewrite str_length_app in E. simpl in E. lia.
    + injection E as -> E. destruct stem as [|c' stem]; [done |].
      apply (f_equal String.length) in E. simpl in E. rewrite str_length_app in E. simpl in E. lia.
  - rewrite re_sub_cons_no_match by done. by rewrite IH.
Qed.

Lemma out_file_of_fastq_nl (stem : string) :
  out_file_of (stem +:+ ".fastq" +:+ nl) = stem +:+ ".fasta" +:+ nl.
Proof.
  unfold out_file_of. induction stem as [|c stem IH]; [done |].
  change (String c stem +:+ ".fastq" +:+ nl) with (String c (stem +:+ ".fastq" +:+ nl)).
  destruct (match_here false fastq_suffix_re (String c (stem +:+ ".fastq" +:+ nl))) as [rest|] eqn:E.
  - apply fastq_suffix_match in E as [[E _]|[E _]];
      apply (f_equal String.length) in E; simpl in E; rewrite str_length_app in E; simpl in E; lia.
  - rewrite re_sub_cons_no_match by done. by rewrite IH.
Qed.

Lemma out_file_of_other (file : string) :
  endswith file ".fastq" = false ->
  endswith file (".fastq" +:+ nl) = false ->
  out_file_of file = file.
Proof.
  unfold out_file_of. induction file as [|c file IH]; [done |]. intros H1 H2.
  destruct (match_here false fastq_suffix_re (String c file)) as [rest|] eqn:E.
  - apply fastq_suffix_match in E as [[E _]|[E _]]; rewrite E in *; done.
  - rewrite re_sub_cons_no_match by done.
    by rewrite IH by eauto using endswith_cons.
Qed.

(** ** Lines *)

Lemma join_py_lines (s : string) : join (py_lines s) = s.
Proof.
  induction s as [|c s IH]; [done |]. simpl.
  destruct (Ascii.eqb c LF).
  - by rewrite join_cons, IH.
  - destruct (py_lines s) as [|l ls]; simpl in *; by rewrite <- IH.
Qed.

Lemma py_lines_not_empty (s : string) : Forall (fun l => l <> "") (py_lines s).
Proof.
  induction s as [|c s IH]; simpl; [constructor |].
  destruct (Ascii.eqb c LF); [by constructor |].
  destruct (py_lines s) as [|l ls]; [by repeat constructor |].
  inversion_clear IH. by constructor.
Qed.

Lemma py_lines_terminated (s : string) (i : nat) (l : string) :
  py_lines s !! i = Some l -> S i < length (py_lines s) -> terminated l = true.
Proof.
  revert i l. induction s as [|c s IH]; intros i l; simpl; [done |].
  destruct (Ascii.eqb_spec c LF) as [->|Hc].
  - destruct i as [|i]; simpl.
    + by intros [= <-].
    + intros ??. eapply IH; [done | lia].
  - destruct (py_lines s) as [|l0 ls]; simpl in *; [lia |].
    destruct i as [|i]; simpl.
    + intros [= <-] ?. simpl. destruct (Ascii.eqb_spec c LF); [done |].
      by apply (IH 0).
    + intros ??. by apply (IH (S i)).
Qed.

Lemma py_lines_terminated_lines (s : string) : terminated_lines (py_lines s).
Proof. intros i l. apply py_lines_terminated. Qed.

Lemma py_lines_app_terminated (l s : string) :
  terminated l = true -> py_lines (l +:+ s) = l :: py_lines s.
Proof.
  induction l as [|c l IH]; simpl; [done |].
  destruct (Ascii.eqb_spec c LF) as [->|Hc].
  - destruct l; [done | done].
  - intros ->%IH. done.
Qed.

Lemma terminated_header (l : string) :
  terminated l = true -> startswith l "@" = true ->
  terminated (">" +:+ slice_from_1 l) = true.
Proof. intros Hl [l' ->]%startswith_char. done. Qed.

Lemma terminated_lines_drop4 (a b c d : string) (rest : list string) :
  terminated_lines (a :: b :: c :: d :: rest) -> terminated_lines rest.
Proof.
  intros H i l Hi Hlen. apply (H (4 + i) l); [done | simpl; lia].
Qed.

(** A line of [py_lines] holds no newline but a last one. *)
Lemma py_lines_ends_in_newline (s : string) :
  Forall (fun l => ends_in_newline l = terminated l) (py_lines s).
Proof.
  induction s as [|c s IH]; simpl; [constructor |].
  destruct (Ascii.eqb_spec c LF) as [->|Hc]; [by constructor |].
  pose proof (py_lines_not_empty s) as Hne.
  destruct (py_lines s) as [|l ls].
  - repeat constructor. simpl. by destruct (Ascii.eqb_spec c LF).
  - inversion_clear IH as [|?? Hl Hls]. inversion_clear Hne as [|?? Hl' _].
    constructor; [| done]. simpl. destruct (Ascii.eqb_spec c LF); [done |].
    by destruct l.
Qed.

Lemma complete_lines_terminated (s : string) :
  Forall (fun l => terminated l = true) (complete_lines s).
Proof.
  unfold complete_lines. apply Forall_forall. intros l [Hl Hin]%list_elem_of_filter.
  pose proof (py_lines_ends_in_newline s) as H.
  eapply Forall_forall in H; [| done]. rewrite <- H. by apply Is_true_true.
Qed.

Lemma complete_lines_not_empty (s : string) :
  Forall (fun l => l <> "") (complete_lines s).
Proof.
  unfold complete_lines. apply Forall_forall. intros l [_ Hin]%list_elem_of_filter.
  pose proof (py_lines_not_empty s) as H. by eapply Forall_forall in H.
Qed.

Lemma py_lines_join (ls : list string) :
  Forall (fun l => terminated l = true) ls -> py_lines (join ls) = ls.
Proof.
  induction 1 as [|l ls Hl _ IH]; [done |].
  by rewrite join_cons, py_lines_app_terminated, IH.
Qed.

Lemma universal_newlines_empty (s : string) : universal_newlines s = "" -> s = "".
Proof. destruct s as [|c s]; [done |]. simpl. by destruct (Ascii.eqb c CR). Qed.

Lemma lines_served_not_empty (n : node) : Forall (fun l => l <> "") (lines_served n).
Proof.
  destruct n; simpl; [apply py_lines_not_empty | constructor | apply complete_lines_not_empty].
Qed.

Lemma universal_newlines_no_cr (s : string) : has_cr s = false -> universal_newlines s = s.
Proof.
  induction s as [|c s IH]; [done |]. cbn [has_cr universal_newlines].
  intros [Hc Hs]%orb_false_elim. rewrite Hc. by rewrite IH.
Qed.

Lemma lines_served_terminated (n : node) : terminated_lines (lines_served n).
Proof.
  destruct n; simpl; [apply py_lines_terminated_lines | by intros [|?] |].
  intros i l Hi _. pose proof (complete_lines_terminated
    (universal_newlines (hold_cr (decoded_pieces before)))) as H.
  eapply Forall_forall in H; [done |]. by eapply list_elem_of_lookup_2.
Qed.

(** ** The conversion loop *)

Lemma frame_ind {A : Type} (P : list A -> Prop) :
  P [] -> (forall a, P [a]) -> (forall a b, P [a; b]) -> (forall a b c, P [a; b; c]) ->
  (forall a b c d rest, P rest -> P (a :: b :: c :: d :: rest)) ->
  forall l, P l.
Proof.
  intros H0 H1 H2 H3 H4.
  fix IH 1. intros [|a [|b [|c [|d rest]]]];
    [apply H0 | apply H1 | apply H2 | apply H3 | apply H4, IH].
Qed.

Lemma mod4_succ (n r : nat) : n mod 4 = r -> r < 3 -> (n + 1) mod 4 = r + 1.
Proof.
  intros <- Hr. rewrite Nat.Div0.add_mod by done.
  rewrite (Nat.mod_small _ 4); [done |]. simpl (1 mod 4). lia.
Qed.

Lemma mod4_wrap (n : nat) : n mod 4 = 3 -> (n + 1) mod 4 = 0.
Proof.
  intros H. rewrite Nat.Div0.add_mod by done. by rewrite H.
Qed.

Lemma mod4_add4 (n : nat) : (4 + n) mod 4 = n mod 4.
Proof.
  rewrite Nat.Div0.add_mod by done. change (4 mod 4) with 0.
  by rewrite Nat.add_0_l, Nat.Div0.mod_mod.
Qed.

Lemma loop_body_header (acc : list (role * string)) (n : nat) (line : string) :
  n mod 4 = 0 ->
  loop_body (LoopState acc n) line =
  LoopState (acc ++ [(Header, ">" +:+ slice_from_1 line)]) (n + 1).
Proof. intros Hn. unfold loop_body. cbn [line_num fa]. by rewrite Hn. Qed.

Lemma loop_body_sequence (acc : list (role * string)) (n : nat) (line : string) :
  n mod 4 = 1 ->
  loop_body (LoopState acc n) line = LoopState (acc ++ [(Sequence, line)]) (n + 1).
Proof. intros Hn. unfold loop_body. cbn [line_num fa]. by rewrite Hn. Qed.

Lemma loop_body_skip (acc : list (role * string)) (n : nat) (line : string) :
  n mod 4 = 2 \/ n mod 4 = 3 ->
  loop_body (LoopState acc n) line = LoopState acc (n + 1).
Proof. intros Hn. unfold loop_body. cbn [line_num fa]. by destruct Hn as [-> | ->]. Qed.

Lemma loop_body_frames (lines : list string) :
  forall acc n, n mod 4 = 0 ->
  fold_left loop_body lines (LoopState acc n) =
  LoopState (acc ++ (frames lines ≫= fasta_of_frame)) (n + length lines).
Proof.
  induction lines as [|a|a b|a b c|a b c d rest IH] using frame_ind; intros acc n Hn.
  - simpl. by rewrite app_nil_r, Nat.add_0_r.
  - simpl. by rewrite loop_body_header by done.
  - simpl. rewrite loop_body_header by done.
    rewrite loop_body_sequence by (by apply (mod4_succ n 0); [|lia]).
    f_equal; [by rewrite <- ?app_assoc | simpl; lia].
  - pose proof (mod4_succ n 0 Hn ltac:(lia)) as H1.
    pose proof (mod4_succ _ 1 H1 ltac:(lia)) as H2.
    simpl. rewrite loop_body_header by done.
    rewrite loop_body_sequence by done.
    rewrite loop_body_skip by auto.
    f_equal; [by rewrite <- ?app_assoc | simpl; lia].
  - pose proof (mod4_succ n 0 Hn ltac:(lia)) as H1.
    pose proof (mod4_succ _ 1 H1 ltac:(lia)) as H2.
    pose proof (mod4_succ _ 2 H2 ltac:(lia)) as H3.
    pose proof (mod4_wrap _ H3) as H4.
    cbn [fold_left]. rewrite loop_body_header by done.
    rewrite loop_body_sequence by done.
    rewrite !loop_body_skip by auto.
    rewrite IH by done.
    cbn [frames mbind list_bind fasta_of_frame app length]. 
    f_equal; [by rewrite <- ?app_assoc | simpl; lia].
Qed.

Lemma convert_lines_frames (lines : list string) :
  fa (convert_lines lines) = frames lines ≫= fasta_of_frame /\
  line_num (convert_lines lines) = length lines.
Proof. unfold convert_lines. by rewrite loop_body_frames. Qed.

Lemma written_text_fasta_of (lines : list string) :
  written_text (convert_lines lines) = fasta_of lines.
Proof.
  unfold written_text, fasta_of. by rewrite (proj1 (convert_lines_frames lines)).
Qed.

Lemma py_lines_fasta_of (lines : list string) :
  well_formed_fastq lines = true -> terminated_lines lines ->
  py_lines (fasta_of lines) = fasta_lines lines.
Proof.
  unfold fasta_of.
  induction lines as [|a|a b|a b c|a b c d rest IH] using frame_ind; try done.
  intros [[Ha _]%andb_prop Hrest]%andb_prop Hterm.
  change (fasta_lines (a :: b :: c :: d :: rest))
    with ((">" +:+ slice_from_1 a) :: b :: fasta_lines rest).
  rewrite !join_cons.
  rewrite py_lines_app_terminated.
  2:{ apply terminated_header; [| done]. apply (Hterm 0); [done | simpl; lia]. }
  rewrite py_lines_app_terminated by (apply (Hterm 1); [done | simpl; lia]).
  by rewrite IH by eauto using terminated_lines_drop4.
Qed.

Lemma fasta_lines_records (N : nat) :
  forall lines, length lines = 4 * N ->
  length (fasta_lines lines) = 2 * N /\
  forall i, i < N ->
    exists header sequence,
      lines !! (4 * i) = Some header /\ lines !! (4 * i + 1) = Some sequence /\
      fasta_lines lines !! (2 * i) = Some (">" +:+ slice_from_1 header) /\
      fasta_lines lines !! (2 * i + 1) = Some sequence.
Proof.
  induction N as [|N IH]; intros lines Hlen.
  - destruct lines; [| done]. split; [done | lia].
  - destruct lines as [|a [|b [|c [|d rest]]]]; simpl in Hlen; try lia.
    destruct (IH rest ltac:(lia)) as [IHlen IHi].
    change (fasta_lines (a :: b :: c :: d :: rest))
      with ((">" +:+ slice_from_1 a) :: b :: fasta_lines rest).
    split; [simpl; lia |].
    intros [|i] Hi.
    + exists a, b. done.
    + destruct (IHi i ltac:(lia)) as (h & s & H1 & H2 & H3 & H4).
      exists h, s.
      replace (4 * S i) with (4 + 4 * i) by lia.
      replace (4 + 4 * i + 1) with (4 + (4 * i + 1)) by lia.
      replace (2 * S i) with (2 + 2 * i) by lia.
      replace (2 + 2 * i + 1) with (2 + (2 * i + 1)) by lia.
      done.
Qed.

(** The sequence lines are written in the order of the input. *)
Lemma written_by_sequence_from (lines : list string) :
  forall acc n,
  written_by Sequence (fold_left loop_body lines (LoopState acc n)) =
  written_by Sequence (LoopState acc n) ++
  (imap (fun i => pair (n + i)) lines ≫=
     fun '(i, l) => if decide (i mod 4 = 1) then [l] else []).
Proof.
  induction lines as [|line lines IH]; intros acc n.
  - simpl. by rewrite app_nil_r.
  - cbn [fold_left]. rewrite imap_cons. cbn [mbind list_bind]. rewrite Nat.add_0_r.
    assert (imap ((fun i => pair (n + i)) ∘ S) lines
            = imap (fun i => pair (n + 1 + i)) lines) as ->.
    { apply imap_ext. intros i x _. simpl. f_equal. lia. }
    destruct (Nat.eq_dec (n mod 4) 0) as [H0|H0];
      [| destruct (Nat.eq_dec (n mod 4) 1) as [H1|H1]].
    + rewrite loop_body_header, IH by done.
      rewrite decide_False by lia. unfold written_by. cbn [fa].
      rewrite bind_app. simpl. by rewrite !app_nil_r.
    + rewrite loop_body_sequence, IH by done.
      rewrite decide_True by done. unfold written_by. cbn [fa].
      rewrite bind_app. simpl. by rewrite <- app_assoc.
    + rewrite loop_body_skip, IH.
      * by rewrite decide_False by done.
      * pose proof (Nat.mod_upper_bound n 4). lia.
Qed.

(** A file whose line count is not a multiple of 4 ends in a partial frame. *)
Lemma partial_frame (lines : list string) :
  length lines mod 4 <> 0 ->
  exists complete partial,
    lines = complete ++ partial /\ length complete mod 4 = 0 /\
    0 < length partial < 4 /\
    fasta_lines lines = fasta_lines complete ++ map snd (fasta_of_frame partial).
Proof.
  induction lines as [|a|a b|a b c|a b c d rest IH] using frame_ind; intros Hlen.
  - done.
  - exists [], [a]. repeat split; simpl; lia || done.
  - exists [], [a; b]. repeat split; simpl; lia || done.
  - exists [], [a; b; c]. repeat split; simpl; lia || done.
  - change (length (a :: b :: c :: d :: rest)) with (4 + length rest) in Hlen.
    rewrite mod4_add4 in Hlen.
    destruct (IH Hlen) as (complete & partial & -> & Hc & Hp & Hf).
    exists (a :: b :: c :: d :: complete), partial.
    split; [done |]. split.
    { change (length (a :: b :: c :: d :: complete)) with (4 + length complete).
      by rewrite mod4_add4. }
    split; [done |].
    change (fasta_lines (a :: b :: c :: d :: (complete ++ partial)))
      with ((">" +:+ slice_from_1 a) :: b :: fasta_lines (complete ++ partial)).
    by rewrite Hf.
Qed.

(** ** The console *)

Lemma say_say (w : world) (es es' : list event) : say (say w es) es' = say w (es ++ es').
Proof. unfold say. simpl. by rewrite app_assoc. Qed.

Lemma say_nil (w : world) : say w [] = w.
Proof. destruct w. unfold say. simpl. by rewrite app_nil_r. Qed.

Lemma for_each_emit (es : list event) (w : world) :
  for_each es emit w = (Return (), say w es).
Proof.
  revert w. induction es as [|e es IH]; intros w.
  - by rewrite say_nil.
  - cbn [for_each]. unfold mbind, M_bind. cbn [emit]. fold (say w [e]).
    by rewrite IH, say_say.
Qed.

Lemma readline_cons (fq l : string) (rest : list string) (w : world) :
  readline fq (l :: rest) w = (Return (l, rest), w).
Proof. done. Qed.

Lemma readline_nil (fq : string) (n : node) (w : world) :
  fs w !! fq = Some n ->
  readline fq [] w =
  if reads_through n then (Return ("", []), w) else (Raise UnicodeDecodeError, w).
Proof.
  intros Hn. unfold readline, mbind, M_bind, read_on. rewrite Hn.
  by destruct (reads_through n).
Qed.

(** The sniff test on a regular file that can be read. *)
Lemma validate_fastq_format_node (w : world) (file : string) (n : node) :
  fs w !! file = Some n -> is_regular n = true -> can_read (node_perms n) = true ->
  validate_fastq_format file w =
  match lines_served n with
  | l0 :: _ :: l2 :: _ :: _ =>
      if negb (startswith l0 "@")
      then (Return false, say w [Print (diagnostic file MissingHeaderMarker)])
      else if negb (startswith l2 "+")
      then (Return false, say w [Print (diagnostic file MissingSeparatorMarker)])
      else (Return true, w)
  | _ =>
      if reads_through n
      then (Return false, say w [Print (diagnostic file IncompleteRecord)])
      else (Return false, say w [PrintExc ("Error validating " +:+ file +:+ ": ") UnicodeDecodeError])
  end.
Proof.
  intros Hfile Hreg Hread.
  unfold validate_fastq_format, try_except, mbind, M_bind, open_r, readlines.
  rewrite Hfile, Hreg, Hread, Hfile.
  pose proof (lines_served_not_empty n) as Hne.
  destruct (lines_served n) as [|l0 [|l1 [|l2 [|l3 rest]]]].
  all: repeat match goal with
         | H : Forall _ (_ :: _) |- _ => apply Forall_cons in H as [?%is_empty_false H]
         end.
  all: destruct (reads_through n) eqn:Ht.
  all: repeat (first [rewrite readline_cons | rewrite (readline_nil file n) by done; rewrite Ht];
               cbv beta iota).
  all: repeat match goal with H : is_empty _ = false |- _ => rewrite H end.
  all: cbn [orb is_empty String.eqb]; rewrite ?orb_true_r; try done.
  all: destruct (startswith l0 "@"); [| done].
  all: destruct (startswith l2 "+"); done.
Qed.

Lemma validate_fastq_format_run (w : world) (file : string) (m : perms) (text : string) :
  fs w !! file = Some (File m text) -> can_read m = true ->
  validate_fastq_format file w =
  match py_lines (universal_newlines text) with
  | l0 :: _ :: l2 :: _ :: _ =>
      if negb (startswith l0 "@")
      then (Return false, say w [Print (diagnostic file MissingHeaderMarker)])
      else if negb (startswith l2 "+")
      then (Return false, say w [Print (diagnostic file MissingSeparatorMarker)])
      else (Return true, w)
  | _ => (Return false, say w [Print (diagnostic file IncompleteRecord)])
  end.
Proof.
  intros Hfile Hread. rewrite (validate_fastq_format_node w file (File m text)) by done.
  cbn [lines_served reads_through].
  by destruct (py_lines (universal_newlines text)) as [|l0 [|l1 [|l2 [|l3 rest]]]].
Qed.

Lemma file_text_Some (f : gmap string node) (file text : string) :
  file_text f file = Some text -> exists m, f !! file = Some (File m text).
Proof.
  unfold file_text. destruct (f !! file) as [[m t| |]|]; [| done..].
  intros [= ->]. eauto.
Qed.

(** What [sniffed] gives is what reading serves. *)
Lemma sniffed_lines (f : gmap string node) (file text : string) :
  sniffed f file = Some text ->
  exists n, f !! file = Some n /\ is_regular n = true /\
    py_lines text = lines_served n /\
    (text = "" -> size n = 0) /\
    (reads_through n = false -> 4 <= length (lines_served n)).
Proof.
  unfold sniffed. destruct (f !! file) as [[m data|m|m before after]|]; [| done | | done].
  - intros [= <-]. exists (File m data). do 3 (split; [done |]). split; [| done].
    by intros ->%universal_newlines_empty.
  - set (served := lines_served (Garbled m before after)).
    assert (lines_served (Garbled m before after) = served) as Hserved by done.
    clearbody served.
    destruct (4 <=? length served) eqn:E; [| done]. intros [= <-].
    exists (Garbled m before after). do 2 (split; [done |]).
    apply Nat.leb_le in E. rewrite Hserved. split; [| split; [| done]].
    + apply py_lines_join. rewrite <- Hserved. apply complete_lines_terminated.
    + intros Hempty. destruct served as [|l ls]; [simpl in E; lia |].
      pose proof (lines_served_not_empty (Garbled m before after)) as Hne.
      rewrite Hserved in Hne. inversion_clear Hne as [|?? Hl _].
      rewrite join_cons in Hempty. by destruct l.
Qed.

Lemma presentable_checks (w : world) (file text : string) :
  presentable (fs w) file text ->
  exists n, fs w !! file = Some n /\ is_regular n = true /\
    can_read (node_perms n) = true /\ py_lines text = lines_served n /\
    (reads_through n = false -> 4 <= length (lines_served n)) /\
    check_file file w =
    (valid ← validate_fastq_format file; when (negb valid) (sys_exit 1)) w.
Proof.
  intros (Hfile & Hread & Hext & Htext & Hne).
  destruct (sniffed_lines _ _ _ Htext) as (n & Hn & Hreg & Hlines & Hsize & Hthrough).
  exists n.
  assert (can_read (node_perms n) = true) as Hm' by (unfold access in Hread; by rewrite Hn in Hread).
  do 5 (split; [done |]).
  unfold check_file, mbind, M_bind, os_path_isfile, os_access_R_OK, os_path_getsize.
  step Hfile. step Hread.
  step Hext. rewrite Hn.
  destruct (size n =? 0) eqn:E; [| done].
  apply Nat.eqb_eq in E. destruct n as [m data|m|m before after]; [| done |].
  - unfold sniffed in Htext. rewrite Hn in Htext. injection Htext as <-.
    destruct data; [done | done].
  - simpl in E. lia.
Qed.

Lemma check_file_accepted (w : world) (file : string) :
  accepted (fs w) file -> check_file file w = (Return (), w).
Proof.
  intros (text & Hpres & Hlen & (l0 & H0 & Hl0) & (l2 & H2 & Hl2)).
  destruct (presentable_checks w file text Hpres) as (n & Hn & Hreg & Hread & Hlines & _ & ->).
  unfold mbind, M_bind. rewrite (validate_fastq_format_node w file n) by done.
  rewrite Hlines in *.
  destruct (lines_served n) as [|? [|? [|? [|? ?]]]]; simpl in Hlen; try lia.
  simpl in H0, H2. injection H0 as ->. injection H2 as ->.
  by rewrite Hl0, Hl2.
Qed.

Lemma check_file_violates (w : world) (file : string) (r : rule) :
  violates (fs w) file r ->
  check_file file w = (SysExit 1, say w [Print (diagnostic file r)]).
Proof.
  destruct r; cbn [violates].
  - intros H. unfold check_file, mbind, M_bind, os_path_isfile. by rewrite H.
  - intros [H1 H2]. unfold check_file, mbind, M_bind, os_path_isfile, os_access_R_OK.
    step H1. by rewrite H2.
  - intros (H1 & H2 & H3).
    unfold check_file, mbind, M_bind, os_path_isfile, os_access_R_OK.
    step H1. step H2.
    by rewrite H3.
  - intros (H1 & H2 & H3 & H4). destruct (file_text_Some _ _ _ H4) as [m Hm].
    unfold check_file, mbind, M_bind, os_path_isfile, os_access_R_OK, os_path_getsize.
    step H1. step H2.
    step H3. by rewrite Hm.
  - intros (text & Hpres & Hlen).
    destruct (presentable_checks w file text Hpres)
      as (n & Hn & Hreg & Hread & Hlines & Hthrough & ->).
    unfold mbind, M_bind. rewrite (validate_fastq_format_node w file n) by done.
    rewrite Hlines in *.
    destruct (reads_through n) eqn:Ht; [| specialize (Hthrough eq_refl); lia].
    destruct (lines_served n) as [|? [|? [|? [|? ?]]]]; simpl in Hlen; try lia; done.
  - intros (text & Hpres & Hlen & (l0 & H0 & Hl0)).
    destruct (presentable_checks w file text Hpres) as (n & Hn & Hreg & Hread & Hlines & _ & ->).
    unfold mbind, M_bind. rewrite (validate_fastq_format_node w file n) by done.
    rewrite Hlines in *.
    destruct (lines_served n) as [|? [|? [|? [|? ?]]]]; simpl in Hlen; try lia.
    simpl in H0. injection H0 as ->. by rewrite Hl0.
  - intros (text & Hpres & Hlen & (l0 & H0 & Hl0) & (l2 & H2 & Hl2)).
    destruct (presentable_checks w file text Hpres) as (n & Hn & Hreg & Hread & Hlines & _ & ->).
    unfold mbind, M_bind. rewrite (validate_fastq_format_node w file n) by done.
    rewrite Hlines in *.
    destruct (lines_served n) as [|? [|? [|? [|? ?]]]]; simpl in Hlen; try lia.
    simpl in H0, H2. injection H0 as ->. injection H2 as ->. by rewrite Hl0, Hl2.
Qed.

Lemma check_file_unsniffable (w : world) (file : string) :
  unsniffable (fs w) file ->
  check_file file w =
  (SysExit 1, say w [PrintExc ("Error validating " +:+ file +:+ ": ") UnicodeDecodeError]).
Proof.
  intros (Hfile & Hread & Hext & n & Hn & Hthrough & Hlen).
  assert (is_regular n = true) as Hreg by (unfold isfile in Hfile; by rewrite Hn in Hfile).
  assert (can_read (node_perms n) = true) as Hm by (unfold access in Hread; by rewrite Hn in Hread).
  unfold check_file, mbind, M_bind, os_path_isfile, os_access_R_OK, os_path_getsize.
  step Hfile. step Hread. step Hext. rewrite Hn.
  assert ((size n =? 0) = false) as ->.
  { destruct n; try done. apply Nat.eqb_neq. simpl. lia. }
  cbn [when mret M_ret]. rewrite (validate_fastq_format_node w file n) by done.
  rewrite Hthrough.
  destruct (lines_served n) as [|? [|? [|? [|? ?]]]]; simpl in Hlen; try lia; done.
Qed.

Lemma for_each_check_accepted (pre rest : list string) (w : world) :
  Forall (accepted (fs w)) pre ->
  for_each (pre ++ rest) check_file w = for_each rest check_file w.
Proof.
  induction 1 as [|file pre Hfile _ IH]; [done |].
  cbn [app for_each]. unfold mbind, M_bind. by rewrite check_file_accepted.
Qed.

Lemma argument_check_accepted (w : world) (files : list string) :
  files <> [] -> Forall (accepted (fs w)) files ->
  argument_check files w = (Return true, w).
Proof.
  intros Hne Hacc. unfold argument_check, mbind, M_bind.
  rewrite bool_decide_eq_false_2 by done. cbn [when mret M_ret].
  rewrite <- (app_nil_r files), for_each_check_accepted by done. done.
Qed.

Lemma accepted_node (f : gmap string node) (file : string) :
  accepted f file ->
  exists n, f !! file = Some n /\ is_regular n = true /\ can_read (node_perms n) = true /\
    isfile f file = true /\ 4 <= length (lines_served n).
Proof.
  intros (text & Hpres & Hlen & _).
  destruct (presentable_checks (World f [] []) file text Hpres)
    as (n & Hn & Hreg & Hread & Hlines & _ & _).
  exists n. rewrite <- Hlines. destruct Hpres as (Hfile & _). done.
Qed.


(** Every path is accepted, or breaks a first rule, or makes the sniff
    test raise. *)
Lemma accepted_or_violates (f : gmap string node) (file : string) :
  accepted f file \/ (exists r, violates f file r) \/ unsniffable f file.
Proof.
  destruct (isfile f file) eqn:Hfile; [| right; left; by exists NotFound].
  destruct (access can_read f file) eqn:Hread; [| right; left; by exists Unreadable].
  destruct (re_search true fastq_ext_re file) eqn:Hext;
    [| right; left; by exists InvalidExtension].
  assert (exists n, f !! file = Some n /\ is_regular n = true) as (n & Hn & Hreg).
  { unfold isfile in Hfile. destruct (f !! file) as [n|]; [eauto | done]. }
  destruct (sniffed f file) as [text|] eqn:Htext.
  2:{ right; right. do 3 (split; [done |]). exists n. split; [done |].
      unfold sniffed in Htext. rewrite Hn in Htext.
      destruct n as [m data|m|m before after]; [done | done |].
      destruct (4 <=? _) eqn:E; [done |]. apply Nat.leb_gt in E. done. }
  destruct (decide (text = "")) as [->|Hne].
  { destruct (sniffed_lines _ _ _ Htext) as (n' & Hn' & _ & _ & Hsize & _).
    rewrite Hn in Hn'. injection Hn' as <-. specialize (Hsize eq_refl).
    right; left. exists EmptyFile. do 3 (split; [done |]).
    unfold file_text. rewrite Hn. destruct n as [m data|m|m before after]; [| done |].
    - by destruct data.
    - simpl in Hsize. lia. }
  assert (presentable f file text) as Hpres by done.
  unfold accepted, line_starts.
  destruct (py_lines text) as [|l0 [|l1 [|l2 [|l3 rest]]]] eqn:Hlines.
  1-4: right; left; exists IncompleteRecord, text; rewrite Hlines; simpl; split; [done | lia].
  destruct (startswith l0 "@") eqn:H0.
  2:{ right; left. exists MissingHeaderMarker, text. rewrite Hlines. unfold line_starts.
      split; [done |]. split; [simpl; lia | by exists l0]. }
  destruct (startswith l2 "+") eqn:H2.
  2:{ right; left. exists MissingSeparatorMarker, text. rewrite Hlines. unfold line_starts.
      split; [done |]. split; [simpl; lia |]. split; [by exists l0 | by exists l2]. }
  left. exists text. rewrite Hlines. split; [done |]. split; [simpl; lia |].
  split; [by exists l0 | by exists l2].
Qed.

(** The paths of a list are all accepted, or there is a first one that
    is not. *)
Lemma first_violation (f : gmap string node) (files : list string) :
  Forall (accepted f) files \/
  exists pre file post,
    files = pre ++ file :: post /\ Forall (accepted f) pre /\
    ((exists r, violates f file r) \/ unsniffable f file).
Proof.
  induction files as [|file files IH]; [by left |].
  destruct (accepted_or_violates f file) as [Hacc|Hbad].
  - destruct IH as [Hall|(pre & bad & post & -> & Hpre & Hbad)].
    + left. by constructor.
    + right. exists (file :: pre), bad, post. split; [done |]. split; [by constructor | done].
  - right. by exists [], file, files.
Qed.

(** X1. Validating a path never changes the file system, whatever the
    verdict. *)
Lemma check_file_frame (w : world) (file : string) :
  fs (check_file file w).2 = fs w.
Proof.
  destruct (accepted_or_violates (fs w) file) as [Hacc|[[r Hr]|Hraise]].
  - by rewrite check_file_accepted.
  - by rewrite (check_file_violates w file r).
  - by rewrite check_file_unsniffable.
Qed.

Lemma open_w_writable (w : world) (p : string) :
  writable_target (fs w) p = true ->
  open_w p w = (Return p, set_fs w (<[p := File (out_perms (fs w) p) ""]> (fs w))).
Proof.
  unfold open_w, writable_target, out_perms, out_dir_of.
  destruct (fs w !! p) as [n|].
  - by intros [-> ->]%andb_prop.
  - destruct (fs w !! _) as [d|]; [| done]. intros [Hd ->]%andb_prop.
    by apply negb_true_iff in Hd as ->.
Qed.

Lemma open_w_not_writable (w : world) (p : string) :
  writable_target (fs w) p = false ->
  exists e, open_w p w = (Raise (OSErr e), w).
Proof.
  unfold open_w, writable_target, out_dir_of.
  destruct (fs w !! p) as [n|].
  - destruct (is_regular n); [| by eauto]. cbn [andb]. intros ->. eauto.
  - destruct (fs w !! _) as [d|]; [| by eauto].
    destruct (is_regular d); [by eauto |]. cbn [andb negb]. intros ->. eauto.
Qed.

Lemma lines_served_truncated (m : perms) : lines_served (File m "") = [].
Proof. done. Qed.

Lemma input_lines_read (w : world) (file out_file : string) (n : node) :
  fs w !! file = Some n ->
  readlines file (set_fs w (<[out_file := File (out_perms (fs w) out_file) ""]> (fs w))) =
  (Return (input_lines (fs w) file out_file),
   set_fs w (<[out_file := File (out_perms (fs w) out_file) ""]> (fs w))).
Proof.
  intros Hfile. unfold readlines, input_lines. cbn [fs set_fs].
  destruct (decide (out_file = file)) as [->|Hne].
  - by rewrite lookup_insert_eq.
  - by rewrite lookup_insert_ne, Hfile by done.
Qed.

Lemma input_read_on (w : world) (file out_file : string) (n : node) :
  fs w !! file = Some n ->
  read_on file (set_fs w (<[out_file := File (out_perms (fs w) out_file) ""]> (fs w))) =
  (if input_read_through (fs w) file out_file then Return () else Raise UnicodeDecodeError,
   set_fs w (<[out_file := File (out_perms (fs w) out_file) ""]> (fs w))).
Proof.
  intros Hfile. unfold read_on, input_read_through. cbn [fs set_fs].
  destruct (decide (out_file = file)) as [->|Hne].
  - by rewrite lookup_insert_eq.
  - rewrite lookup_insert_ne, Hfile by done. by destruct (reads_through n).
Qed.

(** With an output path of its own the loop reads the lines of the input
    as the file held them before the run. *)
Lemma input_lines_other (f : gmap string node) (file out_file : string) (m : perms)
    (text : string) :
  out_file <> file -> f !! file = Some (File m text) ->
  input_lines f file out_file = py_lines (universal_newlines text).
Proof.
  intros Hne Hfile. unfold input_lines. by rewrite decide_False, Hfile.
Qed.

Lemma input_read_through_text (f : gmap string node) (file out_file : string) (m : perms)
    (text : string) :
  f !! file = Some (File m text) -> input_read_through f file out_file = true.
Proof.
  intros Hfile. unfold input_read_through. rewrite Hfile. by destruct (decide _).
Qed.

Lemma input_lines_terminated (f : gmap string node) (file out_file : string) :
  terminated_lines (input_lines f file out_file).
Proof.
  unfold input_lines. destruct (decide _); [by intros [|?] |].
  destruct (f !! file); [apply lines_served_terminated | by intros [|?]].
Qed.

(** The converter, once both files are open: the output receives what the
    loop wrote, whether or not the loop reads to the end of the input. *)
Lemma convert_node (w : world) (file out_file : string) (n : node) :
  fs w !! file = Some n -> is_regular n = true -> can_read (node_perms n) = true ->
  writable_target (fs w) out_file = true ->
  let lines := input_lines (fs w) file out_file in
  let written := <[out_file := File (out_perms (fs w) out_file) (fasta_of lines)]> (fs w) in
  convert file out_file w =
  if input_read_through (fs w) file out_file
  then (Return (),
        World written (stdin w)
          (stdout w ++ if length lines mod 4 =? 0 then []
                       else [incomplete_warning file (length lines)]))
  else (Raise UnicodeDecodeError, World written (stdin w) (stdout w)).
Proof.
  intros Hfile Hreg Hread Hopen lines written.
  unfold convert, mbind, M_bind, open_r. rewrite Hfile, Hreg, Hread, open_w_writable by done.
  rewrite (input_lines_read w file out_file n) by done. fold lines.
  unfold with_close, mbind, M_bind.
  rewrite (input_read_on w file out_file n) by done.
  rewrite written_text_fasta_of, (proj2 (convert_lines_frames lines)).
  subst written.
  destruct (input_read_through (fs w) file out_file).
  - unfold when, flush_close, print, emit, incomplete_warning, set_fs.
    destruct (length lines mod 4 =? 0); cbn [negb mret M_ret fs stdin stdout].
    + rewrite lookup_insert_eq, insert_insert_eq. by rewrite app_nil_r.
    + rewrite lookup_insert_eq, insert_insert_eq. done.
  - unfold flush_close, raise, set_fs. cbn [fs stdin stdout].
    by rewrite lookup_insert_eq, insert_insert_eq.
Qed.

(** The converter on an input that is read to its end. *)
Lemma convert_run (w : world) (file out_file : string) (m : perms) (text : string) :
  fs w !! file = Some (File m text) -> can_read m = true ->
  writable_target (fs w) out_file = true ->
  let lines := input_lines (fs w) file out_file in
  convert file out_file w =
  (Return (),
   World (<[out_file := File (out_perms (fs w) out_file) (fasta_of lines)]> (fs w))
         (stdin w)
         (stdout w ++ if length lines mod 4 =? 0 then [] else [incomplete_warning file (length lines)])).
Proof.
  intros Hfile Hread Hopen lines.
  rewrite (convert_node w file out_file (File m text)) by done.
  by rewrite (input_read_through_text _ _ _ m text).
Qed.

Lemma write_output_run (w : world) (file out_file : string) (m : perms) (text : string) :
  fs w !! file = Some (File m text) -> can_read m = true ->
  access can_write (fs w) (out_dir_of out_file) = true ->
  writable_target (fs w) out_file = true ->
  let lines := input_lines (fs w) file out_file in
  write_output file out_file w =
  (Return (),
   World (<[out_file := File (out_perms (fs w) out_file) (fasta_of lines)]> (fs w))
         (stdin w)
         (stdout w ++
          (if length lines mod 4 =? 0 then [] else [incomplete_warning file (length lines)]) ++
          [converted_message file out_file])).
Proof.
  intros Hfile Hread Hdir Hopen lines.
  unfold write_output, mbind, M_bind, os_access_W_OK, try_except.
  fold (out_dir_of out_file). step Hdir.
  rewrite (convert_run w file out_file m text) by done. fold lines.
  unfold print, emit, converted_message. cbn [fs stdin stdout].
  by rewrite <- app_assoc.
Qed.

(** The loop fails on bytes that cannot be decoded: what it wrote is in
    the output, and the step ends with status 1. *)
Lemma write_output_garbled (w : world) (file out_file : string) (n : node) :
  fs w !! file = Some n -> is_regular n = true -> can_read (node_perms n) = true ->
  access can_write (fs w) (out_dir_of out_file) = true ->
  writable_target (fs w) out_file = true ->
  input_read_through (fs w) file out_file = false ->
  let lines := input_lines (fs w) file out_file in
  write_output file out_file w =
  (SysExit 1,
   World (<[out_file := File (out_perms (fs w) out_file) (fasta_of lines)]> (fs w))
         (stdin w)
         (stdout w ++
          [PrintExc ("Unexpected error processing " +:+ file +:+ ": ") UnicodeDecodeError])).
Proof.
  intros Hfile Hreg Hread Hdir Hopen Hfail lines.
  unfold write_output, mbind, M_bind, os_access_W_OK, try_except.
  fold (out_dir_of out_file). step Hdir.
  rewrite (convert_node w file out_file n) by done. by rewrite Hfail.
Qed.

(** The input is read to its end, or it is another file than the output
    and it cannot be decoded. *)
Lemma input_read_through_cases (f : gmap string node) (file out_file : string) (n : node) :
  f !! file = Some n ->
  input_read_through f file out_file = true \/
  (input_read_through f file out_file = false /\ out_file <> file /\ reads_through n = false).
Proof.
  intros Hn. unfold input_read_through. destruct (decide _); [by left |].
  rewrite Hn. destruct (reads_through n); [by left | by right].
Qed.

Lemma write_output_through (w : world) (file out_file : string) (n : node) :
  fs w !! file = Some n -> is_regular n = true -> can_read (node_perms n) = true ->
  access can_write (fs w) (out_dir_of out_file) = true ->
  writable_target (fs w) out_file = true ->
  input_read_through (fs w) file out_file = true ->
  let lines := input_lines (fs w) file out_file in
  write_output file out_file w =
  (Return (),
   World (<[out_file := File (out_perms (fs w) out_file) (fasta_of lines)]> (fs w))
         (stdin w)
         (stdout w ++
          (if length lines mod 4 =? 0 then [] else [incomplete_warning file (length lines)]) ++
          [converted_message file out_file])).
Proof.
  intros Hfile Hreg Hread Hdir Hopen Hthrough lines.
  unfold write_output, mbind, M_bind, os_access_W_OK, try_except.
  fold (out_dir_of out_file). step Hdir.
  rewrite (convert_node w file out_file n) by done. rewrite Hthrough. fold lines.
  unfold print, emit, converted_message. cbn [fs stdin stdout].
  by rewrite <- app_assoc.
Qed.

(** The two [open] calls of the [with] statement succeed, or the first
    that fails raises an [OSError] and leaves everything as it was. *)
Lemma opens_cases (w : world) (file out_file : string) :
  (exists n, fs w !! file = Some n /\ is_regular n = true /\
     can_read (node_perms n) = true /\ writable_target (fs w) out_file = true) \/
  exists e, (fq ← open_r file; open_w out_file) w = (Raise (OSErr e), w).
Proof.
  unfold mbind, M_bind, open_r.
  destruct (fs w !! file) as [n|] eqn:Hfile; [| by eauto].
  destruct (is_regular n) eqn:Hreg; [| by eauto].
  destruct (can_read (node_perms n)) eqn:Hread; [| by eauto].
  destruct (writable_target (fs w) out_file) eqn:Hopen; [left; by exists n |].
  right. by apply open_w_not_writable.
Qed.

Lemma write_output_open_failure (w w' : world) (file out_file : string) (e : exn) :
  access can_write (fs w) (out_dir_of out_file) = true ->
  (fq ← open_r file; open_w out_file) w = (Raise e, w') ->
  write_output file out_file w =
  (SysExit 1, say w [PrintExc ("Error reading/writing " +:+ file +:+ ": ") e]).
Proof.
  intros Hdir Hopen.
  destruct (opens_cases w file out_file) as [(n & Hfile & Hreg & Hread & Hout)|[e' He']].
  { unfold mbind, M_bind, open_r in Hopen.
    by rewrite Hfile, Hreg, Hread, open_w_writable in Hopen. }
  rewrite He' in Hopen. injection Hopen as <- <-.
  unfold write_output, mbind, M_bind, os_access_W_OK, try_except.
  fold (out_dir_of out_file). step Hdir.
  unfold convert. unfold mbind, M_bind in He' |- *.
  destruct (open_r file w) as [[fq| |] w1]; [| done | by injection He' as -> ->].
  by rewrite He'.
Qed.

Lemma write_output_unwritable (w : world) (file out_file : string) :
  access can_write (fs w) (out_dir_of out_file) = false ->
  write_output file out_file w =
  (SysExit 1, say w [Print ("Error: Cannot write to directory " +:+ out_dir_of out_file)]).
Proof.
  intros Hdir. unfold write_output, mbind, M_bind, os_access_W_OK.
  fold (out_dir_of out_file). by rewrite Hdir.
Qed.

Lemma write_output_stdout (w : world) (file out_file : string) :
  exists tail, stdout (write_output file out_file w).2 = stdout w ++ tail.
Proof.
  destruct (access can_write (fs w) (out_dir_of out_file)) eqn:Hdir.
  2:{ rewrite write_output_unwritable by done. by eexists. }
  destruct (opens_cases w file out_file) as [(n & Hfile & Hreg & Hread & Hout)|[e He]].
  - destruct (input_read_through (fs w) file out_file) eqn:Ht.
    + rewrite (write_output_through w file out_file n) by done. by eexists.
    + rewrite (write_output_garbled w file out_file n) by done. by eexists.
  - rewrite (write_output_open_failure w w file out_file _ Hdir He). by eexists.
Qed.

(** ** The overwrite guard *)

Lemma lower_chr_y (c : ascii) : lower_chr c = "y"%char -> c = "y"%char \/ c = "Y"%char.
Proof. destruct c as [[] [] [] [] [] [] [] []]; vm_compute; intros [=]; auto. Qed.

Lemma lower_chr_e (c : ascii) : lower_chr c = "e"%char -> c = "e"%char \/ c = "E"%char.
Proof. destruct c as [[] [] [] [] [] [] [] []]; vm_compute; intros [=]; auto. Qed.

Lemma lower_chr_s (c : ascii) : lower_chr c = "s"%char -> c = "s"%char \/ c = "S"%char.
Proof. destruct c as [[] [] [] [] [] [] [] []]; vm_compute; intros [=]; auto. Qed.

Lemma affirmative_yes_answers (answer : string) :
  affirmative answer = true <-> answer ∈ yes_answers.
Proof.
  unfold affirmative, yes_answers. rewrite bool_decide_eq_true.
  rewrite !elem_of_cons, !elem_of_nil. split.
  - intros [H|[H|[]]].
    + destruct answer as [|c [|? ?]]; try done.
      injection H as [-> | ->]%lower_chr_y; auto.
    + destruct answer as [|c1 [|c2 [|c3 [|? ?]]]]; try done.
      injection H as [-> | ->]%lower_chr_y [-> | ->]%lower_chr_e [-> | ->]%lower_chr_s;
        auto 12.
  - intros H. repeat destruct H as [-> | H]; [auto.. | done].
Qed.

Lemma not_affirmative (answer : string) :
  answer ∉ yes_answers -> affirmative answer = false.
Proof.
  intros H. destruct (affirmative answer) eqn:E; [| done].
  by apply affirmative_yes_answers in E.
Qed.

Lemma convert_file_fresh (w : world) (file : string) :
  isfile (fs w) (out_file_of file) = false ->
  convert_file file w = write_output file (out_file_of file) w.
Proof.
  intros H. unfold convert_file, mbind, M_bind, os_path_isfile.
  fold (out_file_of file). by rewrite H.
Qed.

Lemma convert_file_asked (w : world) (file answer : string) (rest : list string) :
  isfile (fs w) (out_file_of file) = true ->
  stdin w = answer :: rest ->
  let asked := World (fs w) rest (stdout w ++ overwrite_warning (out_file_of file)) in
  convert_file file w =
  if affirmative answer then write_output file (out_file_of file) asked
  else (SysExit 0, say asked [Print "Operation cancelled by user."]).
Proof.
  intros Hout Hin asked. unfold convert_file, mbind, M_bind, os_path_isfile.
  fold (out_file_of file). rewrite Hout. cbn [when].
  unfold print, emit, input. cbn [fs stdin stdout]. rewrite Hin.
  subst asked. unfold overwrite_warning. rewrite <- !app_assoc. cbn [app].
  by destruct (affirmative answer).
Qed.

Lemma convert_file_eof (w : world) (file : string) :
  isfile (fs w) (out_file_of file) = true ->
  stdin w = [] ->
  convert_file file w = (Raise EOFError, say w (overwrite_warning (out_file_of file))).
Proof.
  intros Hout Hin. unfold convert_file, mbind, M_bind, os_path_isfile.
  fold (out_file_of file). rewrite Hout. cbn [when].
  unfold print, emit, input, say. cbn [fs stdin stdout]. rewrite Hin.
  unfold overwrite_warning. by rewrite <- !app_assoc.
Qed.

(** When the guard lets the step go on, the step is what comes after the
    guard, with the question on the console if it was asked. *)
Lemma convert_file_proceeds (w : world) (file : string) :
  proceeds w (out_file_of file) ->
  exists asked pre,
    convert_file file w = write_output file (out_file_of file) asked /\
    fs asked = fs w /\ stdout asked = stdout w ++ pre /\
    (pre = [] \/ pre = overwrite_warning (out_file_of file)).
Proof.
  intros Hgo. destruct (isfile (fs w) (out_file_of file)) eqn:Hout.
  - destruct Hgo as [|(answer & rest & Hin & Hyes)]; [congruence |].
    pose proof (convert_file_asked w file answer rest Hout Hin) as Hrun. cbn zeta in Hrun.
    rewrite (proj2 (affirmative_yes_answers answer)) in Hrun by done.
    eexists _, _. split; [exact Hrun |]. cbn [fs stdout]. auto.
  - rewrite convert_file_fresh by done. exists w, []. rewrite app_nil_r. auto.
Qed.

(** The converter touches no path but its output. *)
Lemma write_output_frame (w : world) (file out_file p : string) :
  p <> out_file -> fs (write_output file out_file w).2 !! p = fs w !! p.
Proof.
  intros Hp.
  destruct (access can_write (fs w) (out_dir_of out_file)) eqn:Hdir.
  2:{ by rewrite write_output_unwritable. }
  destruct (opens_cases w file out_file) as [(n & Hfile & Hreg & Hread & Hout)|[e He]].
  - destruct (input_read_through (fs w) file out_file) eqn:Ht.
    + rewrite (write_output_through w file out_file n) by done.
      cbn [snd fs]. by rewrite lookup_insert_ne.
    + rewrite (write_output_garbled w file out_file n) by done.
      cbn [snd fs]. by rewrite lookup_insert_ne.
  - by rewrite (write_output_open_failure w w file out_file _ Hdir He).
Qed.

Lemma convert_file_frame (w : world) (file p : string) :
  p <> out_file_of file -> fs (convert_file file w).2 !! p = fs w !! p.
Proof.
  intros Hp. destruct (isfile (fs w) (out_file_of file)) eqn:Hout.
  - destruct (stdin w) as [|answer rest] eqn:Hin.
    + by rewrite convert_file_eof.
    + rewrite (convert_file_asked w file answer rest) by done.
      destruct (affirmative answer); [| done].
      by rewrite write_output_frame.
  - rewrite convert_file_fresh by done. by apply write_output_frame.
Qed.

(** X2. An input with an output path of its own is only read: the step
    leaves it as it was, whatever the operator answers and however the
    step ends. *)
Lemma input_kept (w : world) (file : string) :
  out_file_of file <> file -> fs (convert_file file w).2 !! file = fs w !! file.
Proof. intros Hne. by apply convert_file_frame. Qed.

Lemma input_kept_witness :
  fs (convert_file "a.fastq" (World home [] [])).2 !! "a.fastq" = home !! "a.fastq".
Proof.
  refine (input_kept (World home [] []) "a.fastq" _). by vm_compute.
Defined.

(** A run on one accepted file whose output does not exist yet. *)
Lemma run_fresh_output (w : world) (file : string) (m : perms) (text : string) :
  accepted (fs w) file ->
  fs w !! file = Some (File m text) -> can_read m = true ->
  isfile (fs w) (out_file_of file) = false ->
  access can_write (fs w) (out_dir_of (out_file_of file)) = true ->
  writable_target (fs w) (out_file_of file) = true ->
  let lines := input_lines (fs w) file (out_file_of file) in
  run [file] w =
  (0, World (<[out_file_of file :=
                 File (out_perms (fs w) (out_file_of file)) (fasta_of lines)]> (fs w))
            (stdin w)
            (stdout w ++ banner ++
             (if length lines mod 4 =? 0 then []
              else [incomplete_warning file (length lines)]) ++
             [converted_message file (out_file_of file)] ++ closing)).
Proof.
  intros Hacc Hfile Hread Hfresh Hdir Hopen lines.
  unfold run, main, mbind, M_bind. rewrite for_each_emit.
  rewrite argument_check_accepted by (done || by repeat constructor).
  unfold fastq_to_fasta. cbn [for_each]. unfold mbind, M_bind.
  rewrite convert_file_fresh by done.
  rewrite (write_output_run _ file (out_file_of file) m text) by done.
  cbn [mret M_ret]. rewrite for_each_emit. unfold say. cbn [fs stdin stdout exit_status].
  fold lines. by rewrite <- !app_assoc.
Qed.

Lemma main_unfold (files : list string) (w : world) :
  main files w =
  match argument_check files (say w banner) with
  | (Return _, w1) =>
      match fastq_to_fasta files w1 with
      | (Return _, w2) => (Return (), say w2 closing)
      | (SysExit code, w2) => (SysExit code, w2)
      | (Raise e, w2) => (Raise e, w2)
      end
  | (SysExit code, w1) => (SysExit code, w1)
  | (Raise e, w1) => (Raise e, w1)
  end.
Proof.
  unfold main, mbind, M_bind. rewrite for_each_emit.
  destruct (argument_check files (say w banner)) as [[?| |] w1]; [| done..].
  destruct (fastq_to_fasta files w1) as [[[]| |] w2]; [| done..].
  by rewrite for_each_emit.
Qed.

(** ** Sample inputs *)

(** The checks of the validator on a sample file, by evaluation. *)
Ltac sample_checks :=
  unfold presentable, line_starts;
  repeat split; try (by vm_compute); try (vm_compute; lia);
  eexists; (split; [vm_compute; reflexivity |]); vm_compute; reflexivity.

Lemma accepted_a_fastq : accepted home "a.fastq".
Proof. exists read1. sample_checks. Defined.

Lemma accepted_b_fastq : accepted home "b.fastq".
Proof. exists read1_stray. sample_checks. Defined.

Lemma accepted_sample_fq : accepted home "sample.fq".
Proof. exists read1. sample_checks. Defined.

Lemma y_is_yes : "y" ∈ yes_answers.
Proof. unfold yes_answers. apply list_elem_of_here. Defined.

Lemma empty_is_no : "" ∉ yes_answers.
Proof.
  intros H%affirmative_yes_answers. discriminate H.
Defined.

(** * The claims *)

(** C1, as the script has it.  An input that is read to its end, made of
    N complete, well-formed records, and whose output path is not the
    input path itself: when the overwrite guard lets the step go on and
    the output can be written, the step returns normally, leaves the input
    as it was and an output of exactly 2N lines; line [2i] is [>] followed
    by input line [4i] without its first character, line [2i+1] is input
    line [4i+1].  The input lines are the lines as they are read, with
    [\n] for every line end: of an input without a [\r], the lines of the
    file character for character. *)
Theorem fastq_records_converted
    (w : world) (file : string) (m : perms) (text : string) (N : nat) :
  let out_file := out_file_of file in
  let lines := py_lines (universal_newlines text) in
  fs w !! file = Some (File m text) -> can_read m = true ->
  out_file <> file ->
  well_formed_fastq lines = true ->
  length lines = 4 * N ->
  proceeds w out_file ->
  access can_write (fs w) (out_dir_of out_file) = true ->
  writable_target (fs w) out_file = true ->
  (exists w2 mo out_text,
     convert_file file w = (Return (), w2) /\
     fs w2 !! out_file = Some (File mo out_text) /\
     fs w2 !! file = Some (File m text) /\
     length (py_lines out_text) = 2 * N /\
     forall i, i < N ->
       exists header sequence,
         lines !! (4 * i) = Some header /\
         lines !! (4 * i + 1) = Some sequence /\
         py_lines out_text !! (2 * i) = Some (">" +:+ slice_from_1 header) /\
         py_lines out_text !! (2 * i + 1) = Some sequence) /\
  (has_cr text = false -> lines = py_lines text).
Proof.
  intros out_file lines Hfile Hread Hne Hwf Hlen Hgo Hdir Hopen.
  split; [| intros Hcr; subst lines; by rewrite universal_newlines_no_cr].
  destruct (convert_file_proceeds w file Hgo) as (asked & pre & -> & Hfs & _).
  fold out_file. rewrite <- Hfs in Hfile, Hdir, Hopen.
  rewrite (write_output_run asked file out_file m text) by done.
  rewrite (input_lines_other _ file out_file m text) by done. fold lines.
  eexists _, _, _. split; [done |]. cbn [fs].
  rewrite lookup_insert_eq, lookup_insert_ne by done. do 2 (split; [done |]).
  rewrite py_lines_fasta_of by (done || apply py_lines_terminated_lines).
  by apply fasta_lines_records.
Qed.

Lemma fastq_records_converted_witness :
  (exists w2 mo out_text,
     convert_file "a.fastq" (World home [] []) = (Return (), w2) /\
     fs w2 !! "a.fasta" = Some (File mo out_text) /\
     fs w2 !! "a.fastq" = Some (File rw read1) /\
     length (py_lines out_text) = 2 * 1 /\
     forall i, i < 1 ->
       exists header sequence,
         py_lines (universal_newlines read1) !! (4 * i) = Some header /\
         py_lines (universal_newlines read1) !! (4 * i + 1) = Some sequence /\
         py_lines out_text !! (2 * i) = Some (">" +:+ slice_from_1 header) /\
         py_lines out_text !! (2 * i + 1) = Some sequence) /\
  (has_cr read1 = false -> py_lines (universal_newlines read1) = py_lines read1).
Proof.
  refine (fastq_records_converted (World home [] []) "a.fastq" rw read1 1 _ _ _ _ _ _ _ _);
    try (vm_compute; reflexivity).
  - by vm_compute.
  - left. by vm_compute.
Defined.

(** Against C1 as it was stated.  A well-formed file of one record with
    the line ends of DOS is accepted and converted, and the second line of
    the output is not the second line of the input: the [\r] is gone.  And
    [sample.fq], a well-formed file of one record, is its own output path:
    after the operator's [y] the run ends with status 0 and leaves no
    line at all. *)
Lemma dos_lines_rewritten :
  (accepted dos "w.fastq" /\
   file_text dos "w.fastq" = Some read1_dos /\
   well_formed_fastq (py_lines read1_dos) = true /\
   length (py_lines read1_dos) = 4 * 1 /\
   (run ["w.fastq"] (World dos [] [])).1 = 0 /\
   file_text (fs (run ["w.fastq"] (World dos [] [])).2) "w.fasta" =
     Some (">r1" +:+ nl +:+ "ACGT" +:+ nl) /\
   py_lines read1_dos !! 1 = Some ("ACGT" +:+ String CR nl) /\
   py_lines (">r1" +:+ nl +:+ "ACGT" +:+ nl) !! 1 = Some ("ACGT" +:+ nl) /\
   "ACGT" +:+ nl <> "ACGT" +:+ String CR nl) /\
  (accepted home "sample.fq" /\
   file_text home "sample.fq" = Some read1 /\
   well_formed_fastq (py_lines read1) = true /\
   length (py_lines read1) = 4 * 1 /\
   (run ["sample.fq"] (World home ["y"] [])).1 = 0 /\
   file_text (fs (run ["sample.fq"] (World home ["y"] [])).2) (out_file_of "sample.fq") =
     Some "" /\
   length (py_lines "") <> 2 * 1).
Proof.
  split.
  - split; [| by vm_compute]. exists (universal_newlines read1_dos). sample_checks.
  - split; [exact accepted_sample_fq | by vm_compute].
Qed.

(** C2, as the script has it.  An input that is read to its end and whose
    output path is not the input path itself: when the guard lets the
    step go on and the output can be written, the output file holds the
    texts that the loop wrote, in order: frame by frame the rewritten
    header and then the sequence line.  The texts written by the sequence
    branch are the input lines at the positions congruent to 1 modulo 4,
    one for one and in order; so are their concatenations.  The input
    lines are the lines as they are read, with [\n] for every line end; of
    an input without a [\r] they are the lines of the file, and the two
    concatenations agree character for character. *)
Theorem sequence_lines_preserved (w : world) (file : string) (m : perms) (text : string) :
  let out_file := out_file_of file in
  let lines := py_lines (universal_newlines text) in
  fs w !! file = Some (File m text) -> can_read m = true ->
  out_file <> file ->
  proceeds w out_file ->
  access can_write (fs w) (out_dir_of out_file) = true ->
  writable_target (fs w) out_file = true ->
  exists w2,
    convert_file file w = (Return (), w2) /\
    file_text (fs w2) out_file = Some (join (map snd (fa (convert_lines lines)))) /\
    fa (convert_lines lines) = frames lines ≫= fasta_of_frame /\
    written_by Sequence (convert_lines lines) = lines_at 1 lines /\
    join (written_by Sequence (convert_lines lines)) = join (lines_at 1 lines) /\
    (has_cr text = false ->
     join (written_by Sequence (convert_lines lines)) = join (lines_at 1 (py_lines text))).
Proof.
  intros out_file lines Hfile Hread Hne Hgo Hdir Hopen.
  destruct (convert_file_proceeds w file Hgo) as (asked & pre & -> & Hfs & _).
  fold out_file. rewrite <- Hfs in Hfile, Hdir, Hopen.
  rewrite (write_output_run asked file out_file m text) by done.
  rewrite (input_lines_other _ file out_file m text) by done. fold lines.
  eexists. split; [done |]. unfold file_text. cbn [fs]. rewrite lookup_insert_eq.
  split; [by rewrite <- written_text_fasta_of |].
  split; [apply convert_lines_frames |].
  assert (written_by Sequence (convert_lines lines) = lines_at 1 lines) as ->.
  { unfold convert_lines. rewrite written_by_sequence_from. done. }
  do 2 (split; [done |]). intros Hcr. subst lines. by rewrite universal_newlines_no_cr.
Qed.

Lemma sequence_lines_preserved_witness :
  exists w2,
    convert_file "b.fastq" (World home [] []) = (Return (), w2) /\
    file_text (fs w2) "b.fasta" =
      Some (join (map snd (fa (convert_lines (py_lines (universal_newlines read1_stray)))))) /\
    fa (convert_lines (py_lines (universal_newlines read1_stray))) =
      frames (py_lines (universal_newlines read1_stray)) ≫= fasta_of_frame /\
    written_by Sequence (convert_lines (py_lines (universal_newlines read1_stray))) =
      lines_at 1 (py_lines (universal_newlines read1_stray)) /\
    join (written_by Sequence (convert_lines (py_lines (universal_newlines read1_stray)))) =
      join (lines_at 1 (py_lines (universal_newlines read1_stray))) /\
    (has_cr read1_stray = false ->
     join (written_by Sequence (convert_lines (py_lines (universal_newlines read1_stray)))) =
       join (lines_at 1 (py_lines read1_stray))).
Proof.
  refine (sequence_lines_preserved (World home [] []) "b.fastq" rw read1_stray _ _ _ _ _ _);
    try (vm_compute; reflexivity).
  - by vm_compute.
  - left. by vm_compute.
Defined.

(** Against C2 as it was stated.  Of the file with the line ends of DOS
    the loop writes the sequence line with [\n] where the file has [\r\n]:
    the concatenations differ.  And of [sample.fq], its own output path,
    nothing is written after the operator's [y], though its second line is
    a sequence line. *)
Lemma dos_sequence_rewritten :
  (accepted dos "w.fastq" /\
   file_text dos "w.fastq" = Some read1_dos /\
   (run ["w.fastq"] (World dos [] [])).1 = 0 /\
   file_text (fs (run ["w.fastq"] (World dos [] [])).2) "w.fasta" =
     Some (">r1" +:+ nl +:+ "ACGT" +:+ nl) /\
   written_by Sequence (convert_lines (input_lines dos "w.fastq" "w.fasta")) =
     ["ACGT" +:+ nl] /\
   join (lines_at 1 (py_lines read1_dos)) = "ACGT" +:+ String CR nl /\
   join ["ACGT" +:+ nl] <> "ACGT" +:+ String CR nl) /\
  (accepted home "sample.fq" /\
   file_text home "sample.fq" = Some read1 /\
   join (lines_at 1 (py_lines read1)) = "ACGT" +:+ nl /\
   (run ["sample.fq"] (World home ["y"] [])).1 = 0 /\
   file_text (fs (run ["sample.fq"] (World home ["y"] [])).2) (out_file_of "sample.fq") =
     Some "").
Proof.
  split.
  - split; [| by vm_compute]. exists (universal_newlines read1_dos). sample_checks.
  - split; [exact accepted_sample_fq | by vm_compute].
Qed.

(** C3. The validator checks the paths in order and each path by the rules
    in order; at the first rule that a path breaks the program prints the
    diagnostic of that rule for that path and exits with status 1, whatever
    paths follow: nothing later is validated, nothing is converted. *)
Theorem argument_check_fails_fast
    (w : world) (pre : list string) (file : string) (post : list string) (r : rule) :
  Forall (accepted (fs w)) pre ->
  violates (fs w) file r ->
  run (pre ++ file :: post) w = (1, say w (banner ++ [Print (diagnostic file r)])).
Proof.
  intros Hpre Hfile. unfold run, main, mbind, M_bind.
  rewrite for_each_emit. unfold argument_check, mbind, M_bind.
  assert (bool_decide (pre ++ file :: post = []) = false) as ->.
  { apply bool_decide_eq_false. by destruct pre. }
  cbn [when mret M_ret].
  rewrite for_each_check_accepted by done.
  cbn [for_each]. unfold mbind, M_bind.
  rewrite (check_file_violates _ _ r) by done.
  by rewrite say_say.
Qed.

Lemma argument_check_fails_fast_witness :
  run ["a.fastq"; "bad.fastq"; "sample.fq"] (World home [] []) =
  (1, say (World home [] [])
        (banner ++ [Print (diagnostic "bad.fastq" MissingSeparatorMarker)])).
Proof.
  refine (argument_check_fails_fast (World home [] []) ["a.fastq"] "bad.fastq" ["sample.fq"]
            MissingSeparatorMarker _ _).
  - exact (Forall_cons_2 _ _ _ accepted_a_fastq (Forall_nil_2 _)).
  - exists unmarked. sample_checks.
Defined.




(** C5, as the script has it.  The output path is the input path with a
    final [.fastq] replaced by [.fasta], letter case respected; the
    [.fastq] may also stand just before a newline that ends the name.  Any
    other path, such as one ending in [.fq] or [.FASTQ], is its own output
    path. *)
Theorem out_file_naming :
  (forall stem, out_file_of (stem +:+ ".fastq") = stem +:+ ".fasta") /\
  (forall stem, out_file_of (stem +:+ ".fastq" +:+ nl) = stem +:+ ".fasta" +:+ nl) /\
  (forall file,
     endswith file ".fastq" = false ->
     endswith file (".fastq" +:+ nl) = false ->
     out_file_of file = file).
Proof.
  split; [apply out_file_of_fastq |]. split; [apply out_file_of_fastq_nl |].
  apply out_file_of_other.
Qed.

Lemma out_file_naming_witness :
  out_file_of "reads/sample.fq" = "reads/sample.fq" /\
  out_file_of "SAMPLE.FASTQ" = "SAMPLE.FASTQ".
Proof.
  split.
  - exact (proj2 (proj2 out_file_naming) "reads/sample.fq" eq_refl eq_refl).
  - exact (proj2 (proj2 out_file_naming) "SAMPLE.FASTQ" eq_refl eq_refl).
Defined.

(** Against C5 as it was stated: a file whose name is [a.fastq] followed by
    a newline passes the validator, its name does not end in [.fastq], and
    yet the substitution applies to it. *)
Lemma out_file_of_odd_name :
  accepted odd_home odd_name /\
  endswith odd_name ".fastq" = false /\
  out_file_of odd_name = "a.fasta" +:+ nl /\
  out_file_of odd_name <> odd_name.
Proof.
  split; [| by vm_compute].
  exists read1. sample_checks.
Qed.

(** C6 at a failing input: [sample.fq] passes the validator and is its own
    output path; the operator confirms; the run ends with status 0 and the
    input file is empty.  (An input with an output path of its own is only
    read: [check_file_frame], [input_kept].) *)
Theorem sample_fq_emptied :
  accepted home "sample.fq" /\
  file_text home "sample.fq" = Some read1 /\
  out_file_of "sample.fq" = "sample.fq" /\
  (run ["sample.fq"] (World home ["y"] [])).1 = 0 /\
  file_text (fs (run ["sample.fq"] (World home ["y"] [])).2) "sample.fq" = Some "".
Proof. split; [exact accepted_sample_fq | by vm_compute]. Qed.

(** C7. An accepted input whose output path is the input path itself:
    the question about overwriting is always asked, whatever the operator
    answers.  After [y] or [yes], once the directory has passed its check
    and the file is opened for writing, the file is empty before a line is
    read from it: the loop reads no line, the conversion ends normally
    with nothing written, and the file is left empty. *)
Theorem self_overwrite (w : world) (file : string) :
  accepted (fs w) file ->
  out_file_of file = file ->
  (exists tail, stdout (convert_file file w).2 = stdout w ++ overwrite_warning file ++ tail) /\
  (forall answer rest,
     stdin w = answer :: rest ->
     answer ∈ yes_answers ->
     access can_write (fs w) (out_dir_of file) = true ->
     writable_target (fs w) file = true ->
     let asked := World (fs w) rest (stdout w ++ overwrite_warning file) in
     (exists opened,
        (fq ← open_r file; open_w file) asked = (Return file, opened) /\
        file_text (fs opened) file = Some "" /\
        readlines file opened = (Return [], opened)) /\
     exists w2,
       convert_file file w = (Return (), w2) /\
       file_text (fs w2) file = Some "" /\
       stdout w2 = stdout asked ++ [converted_message file file]).
Proof.
  intros Hacc Hsame.
  destruct (accepted_node _ _ Hacc) as (n & Hfile & Hreg & Hread & Hisfile & _).
  assert (isfile (fs w) (out_file_of file) = true) as Hout by by rewrite Hsame.
  split.
  - destruct (stdin w) as [|answer rest] eqn:Hin.
    + rewrite convert_file_eof by done. rewrite Hsame. exists []. by rewrite app_nil_r.
    + rewrite (convert_file_asked w file answer rest) by done. rewrite Hsame.
      destruct (affirmative answer).
      * destruct (write_output_stdout
                    (World (fs w) rest (stdout w ++ overwrite_warning file)) file file)
          as [tail ->].
        exists tail. cbn [stdout]. by rewrite <- app_assoc.
      * eexists. cbn [snd say stdout]. by rewrite <- app_assoc.
  - intros answer rest Hin Hyes%affirmative_yes_answers Hdir Hopen asked. split.
    + eexists. unfold mbind, M_bind, open_r. cbn [fs asked]. rewrite Hfile, Hreg, Hread.
      rewrite (open_w_writable asked) by done. split; [done |].
      unfold file_text, readlines, set_fs. cbn [fs]. by rewrite lookup_insert_eq.
    + rewrite (convert_file_asked w file answer rest) by done. rewrite Hsame, Hyes.
      assert (input_read_through (fs w) file file = true) as Hthrough.
      { unfold input_read_through. by rewrite decide_True. }
      rewrite (write_output_through _ file file n) by done.
      eexists. split; [done |]. cbn [fs stdout]. unfold file_text, input_lines.
      rewrite lookup_insert_eq, decide_True by done. done.
Qed.

Lemma self_overwrite_witness :
  (exists tail,
     stdout (convert_file "sample.fq" (World home ["y"] [])).2 =
     [] ++ overwrite_warning "sample.fq" ++ tail) /\
  (exists opened,
     (fq ← open_r "sample.fq"; open_w "sample.fq")
       (World home [] ([] ++ overwrite_warning "sample.fq")) = (Return "sample.fq", opened) /\
     file_text (fs opened) "sample.fq" = Some "" /\
     readlines "sample.fq" opened = (Return [], opened)) /\
  exists w2,
    convert_file "sample.fq" (World home ["y"] []) = (Return (), w2) /\
    file_text (fs w2) "sample.fq" = Some "" /\
    stdout w2 =
      ([] ++ overwrite_warning "sample.fq") ++ [converted_message "sample.fq" "sample.fq"].
Proof.
  pose proof (self_overwrite (World home ["y"] []) "sample.fq" accepted_sample_fq eq_refl)
    as [Hasked Hyes].
  split; [exact Hasked |].
  exact (Hyes "y" [] eq_refl y_is_yes eq_refl eq_refl).
Defined.

(** C8, as the script has it.  With a directory that cannot be written
    the program stops with status 1 and the message that names the
    directory; it does so without a question when no output exists yet.
    When the output exists the operator is asked first: after [y] or
    [yes] the same message and status 1 follow, after any other answer the
    program ends with status 0. *)
Theorem unwritable_directory (w : world) (file : string) :
  let out_file := out_file_of file in
  let refusal := Print ("Error: Cannot write to directory " +:+ out_dir_of out_file) in
  access can_write (fs w) (out_dir_of out_file) = false ->
  (isfile (fs w) out_file = false ->
     convert_file file w = (SysExit 1, say w [refusal])) /\
  (isfile (fs w) out_file = true ->
     forall answer rest, stdin w = answer :: rest ->
       let asked := World (fs w) rest (stdout w ++ overwrite_warning out_file) in
       (answer ∈ yes_answers -> convert_file file w = (SysExit 1, say asked [refusal])) /\
       (answer ∉ yes_answers ->
          convert_file file w = (SysExit 0, say asked [Print "Operation cancelled by user."]))).
Proof.
  intros out_file refusal Hdir. split.
  - intros Hout. rewrite convert_file_fresh by done.
    by apply write_output_unwritable.
  - intros Hout answer rest Hin asked.
    pose proof (convert_file_asked w file answer rest Hout Hin) as Hrun.
    cbn zeta in Hrun. fold out_file asked in Hrun. split.
    + intros Hyes%affirmative_yes_answers. rewrite Hrun, Hyes.
      by apply write_output_unwritable.
    + intros Hno. by rewrite Hrun, not_affirmative.
Qed.

Lemma unwritable_directory_witness :
  convert_file "a.fastq" (World locked ["y"] []) =
    (SysExit 1,
     say (World locked [] (overwrite_warning "a.fasta"))
       [Print "Error: Cannot write to directory ."]) /\
  convert_file "b.fastq" (World locked [] []) =
    (SysExit 1, say (World locked [] []) [Print "Error: Cannot write to directory ."]).
Proof.
  split.
  - exact (proj1 (proj2 (unwritable_directory (World locked ["y"] []) "a.fastq" eq_refl)
                    eq_refl "y" [] eq_refl) y_is_yes).
  - exact (proj1 (unwritable_directory (World locked [] []) "b.fastq" eq_refl) eq_refl).
Defined.

(** Against C8 as it was stated: the directory cannot be written and the
    output exists; the operator is asked before the refusal, and an
    answer other than yes ends the run with status 0, without a refusal. *)
Lemma prompt_before_refusal :
  access can_write locked (out_dir_of (out_file_of "a.fastq")) = false /\
  run ["a.fastq"] (World locked ["y"] []) =
    (1, World locked []
          (banner ++ overwrite_warning "a.fasta" ++
           [Print "Error: Cannot write to directory ."])) /\
  run ["a.fastq"] (World locked ["n"] []) =
    (0, World locked []
          (banner ++ overwrite_warning "a.fasta" ++
           [Print "Operation cancelled by user."])).
Proof. by vm_compute. Qed.

(** C9. When the output exists the operator is asked.  Any answer other
    than [y] or [yes] in some mix of cases, the empty answer included, ends
    the program at once with status 0 and without touching a file: the
    files that follow and the rest of the program are skipped.  [y] or
    [yes] lets the conversion go on, and where the files can be opened the
    existing output is replaced by the converted text. *)
Theorem overwrite_guard
    (w : world) (file : string) (later : list string) (answer : string) (rest : list string) :
  isfile (fs w) (out_file_of file) = true ->
  stdin w = answer :: rest ->
  let out_file := out_file_of file in
  let asked := World (fs w) rest (stdout w ++ overwrite_warning out_file) in
  (answer ∉ yes_answers ->
     forall then_ : M unit,
       (fastq_to_fasta (file :: later) ;; then_) w =
         (SysExit 0, say asked [Print "Operation cancelled by user."]) /\
       exit_status ((fastq_to_fasta (file :: later) ;; then_) w).1 = 0) /\
  (answer ∈ yes_answers ->
     fastq_to_fasta (file :: later) w =
       (write_output file out_file ;; fastq_to_fasta later) asked) /\
  (answer ∈ yes_answers ->
     forall m text,
       fs w !! file = Some (File m text) -> can_read m = true ->
       access can_write (fs w) (out_dir_of out_file) = true ->
       writable_target (fs w) out_file = true ->
       exists w2,
         convert_file file w = (Return (), w2) /\
         file_text (fs w2) out_file = Some (fasta_of (input_lines (fs w) file out_file))).
Proof.
  intros Hout Hin out_file asked.
  pose proof (convert_file_asked w file answer rest Hout Hin) as Hrun.
  cbn zeta in Hrun. fold out_file asked in Hrun.
  split; [| split].
  - intros Hno then_. unfold fastq_to_fasta. cbn [for_each]. unfold mbind, M_bind.
    by rewrite Hrun, not_affirmative.
  - intros Hyes%affirmative_yes_answers. unfold fastq_to_fasta. cbn [for_each].
    unfold mbind, M_bind. by rewrite Hrun, Hyes.
  - intros Hyes%affirmative_yes_answers m text Hfile Hread Hdir Hopen.
    rewrite Hrun, Hyes.
    rewrite (write_output_run asked file out_file m text) by done.
    eexists. split; [done |]. unfold file_text. cbn [fs].
    by rewrite lookup_insert_eq.
Qed.

Lemma overwrite_guard_witness :
  (fastq_to_fasta ["a.fastq"; "b.fastq"] ;; for_each closing emit) (World crowded [""] []) =
    (SysExit 0,
     say (World crowded [] (overwrite_warning "a.fasta"))
       [Print "Operation cancelled by user."]) /\
  exit_status
    ((fastq_to_fasta ["a.fastq"; "b.fastq"] ;; for_each closing emit)
       (World crowded [""] [])).1 = 0.
Proof.
  exact (proj1 (overwrite_guard (World crowded [""] []) "a.fastq" ["b.fastq"] "" []
                  eq_refl eq_refl) empty_is_no (for_each closing emit)).
Defined.

(** C10, as the script has it.  An input that is read to its end, whose
    lines are not a multiple of 4 in number and whose output path is not
    the input path itself: when the guard lets the step go on and the
    output can be written, the output holds the complete frames and then
    the header and the sequence line of the partial frame at the end, the
    warning with the file name and the line count is printed, and the
    step ends normally: it neither exits nor raises.  A run on such a file
    alone, accepted, ends with exit status 0. *)
Theorem incomplete_record_warning (w : world) (file : string) (m : perms) (text : string) :
  let out_file := out_file_of file in
  let lines := py_lines (universal_newlines text) in
  fs w !! file = Some (File m text) -> can_read m = true ->
  out_file <> file ->
  length lines mod 4 <> 0 ->
  proceeds w out_file ->
  access can_write (fs w) (out_dir_of out_file) = true ->
  writable_target (fs w) out_file = true ->
  (exists complete partial w2 pre,
     lines = complete ++ partial /\ length complete mod 4 = 0 /\
     0 < length partial < 4 /\
     convert_file file w = (Return (), w2) /\
     file_text (fs w2) out_file =
       Some (fasta_of complete +:+ join (map snd (fasta_of_frame partial))) /\
     stdout w2 =
       stdout w ++ pre ++
       [incomplete_warning file (length lines); converted_message file out_file] /\
     (pre = [] \/ pre = overwrite_warning out_file)) /\
  (accepted (fs w) file ->
     (run [file] w).1 = 0 /\
     incomplete_warning file (length lines) ∈ stdout (run [file] w).2).
Proof.
  intros out_file lines Hfile Hread Hne Hlen Hgo Hdir Hopen.
  assert ((length lines mod 4 =? 0) = false) as Hmod by by apply Nat.eqb_neq.
  assert (forall w0, fs w0 = fs w -> stdin w0 = stdin w ->
    exists w2 pre,
      convert_file file w0 = (Return (), w2) /\
      file_text (fs w2) out_file = Some (fasta_of lines) /\
      stdout w2 =
        stdout w0 ++ pre ++
        [incomplete_warning file (length lines); converted_message file out_file] /\
      (pre = [] \/ pre = overwrite_warning out_file)) as Hstep.
  { intros w0 Hfs Hin.
    assert (proceeds w0 out_file) as Hgo0 by (unfold proceeds; by rewrite Hfs, Hin).
    destruct (convert_file_proceeds w0 file Hgo0) as (asked & pre & -> & Hfs' & Hout & Hpre).
    fold out_file. rewrite <- Hfs, <- Hfs' in Hfile, Hdir, Hopen.
    rewrite (write_output_run asked file out_file m text) by done.
    rewrite (input_lines_other _ file out_file m text) by done. fold lines.
    eexists _, pre. split; [done |]. unfold file_text. cbn [fs stdout].
    rewrite lookup_insert_eq, Hmod, Hout. split; [done |]. by rewrite <- app_assoc. }
  split.
  - destruct (partial_frame lines Hlen) as (complete & partial & Hsplit & Hc & Hp & Hf).
    destruct (Hstep w eq_refl eq_refl) as (w2 & pre & Hrun & Htext & Hout & Hpre).
    exists complete, partial, w2, pre. do 4 (split; [done |]).
    split; [| done]. rewrite Htext. unfold fasta_of. by rewrite Hf, join_app.
  - intros Hacc. unfold run. rewrite main_unfold.
    rewrite argument_check_accepted by (done || by repeat constructor).
    unfold fastq_to_fasta. cbn [for_each]. unfold mbind, M_bind.
    destruct (Hstep (say w banner) eq_refl eq_refl) as (w2 & pre & -> & _ & Hout & _).
    cbn [mret M_ret fst snd exit_status say stdout]. split; [done |].
    rewrite Hout, !elem_of_app, elem_of_cons. auto.
Qed.

Lemma incomplete_record_warning_witness :
  (exists complete partial w2 pre,
     py_lines (universal_newlines read1_stray) = complete ++ partial /\
     length complete mod 4 = 0 /\
     0 < length partial < 4 /\
     convert_file "b.fastq" (World home [] []) = (Return (), w2) /\
     file_text (fs w2) "b.fasta" =
       Some (fasta_of complete +:+ join (map snd (fasta_of_frame partial))) /\
     stdout w2 =
       [] ++ pre ++
       [incomplete_warning "b.fastq" (length (py_lines (universal_newlines read1_stray)));
        converted_message "b.fastq" "b.fasta"] /\
     (pre = [] \/ pre = overwrite_warning "b.fasta")) /\
  (run ["b.fastq"] (World home [] [])).1 = 0 /\
  incomplete_warning "b.fastq" (length (py_lines (universal_newlines read1_stray)))
    ∈ stdout (run ["b.fastq"] (World home [] [])).2.
Proof.
  assert (length (py_lines (universal_newlines read1_stray)) mod 4 <> 0) as Hodd
    by by vm_compute.
  assert ("b.fasta" <> "b.fastq") as Hne by done.
  pose proof (incomplete_record_warning (World home [] []) "b.fastq" rw read1_stray
                eq_refl eq_refl Hne Hodd (or_introl eq_refl) eq_refl eq_refl) as [Hstep Hrun].
  split; [exact Hstep |].
  exact (Hrun accepted_b_fastq).
Defined.

(** Against C10 as it was stated.  A file of five lines whose first four
    lines are a record and whose fifth line, longer than a piece of the
    text layer, ends in a byte that cannot be decoded: it is accepted, the
    loop writes the record and fails on the fifth line, and the run ends
    with status 1 after the exception, without the warning.  And a file of
    five lines that is its own output path is left empty after the
    operator's [y], without the warning. *)
Lemma long_tail_fails :
  (accepted mixed "l.fastq" /\
   mixed !! "l.fastq" = Some long_tail /\
   length (py_lines (content long_tail)) = 5 /\
   run ["l.fastq"] (World mixed [] []) =
     (1, World (<["l.fasta" := File rw (">r1" +:+ nl +:+ "ACGT" +:+ nl)]> mixed) []
           (banner ++
            [PrintExc "Unexpected error processing l.fastq: " UnicodeDecodeError]))) /\
  (accepted mixed "s.fq" /\
   file_text mixed "s.fq" = Some read1_stray /\
   length (py_lines read1_stray) = 5 /\
   run ["s.fq"] (World mixed ["y"] []) =
     (0, World (<["s.fq" := File rw ""]> mixed) []
           (banner ++ overwrite_warning "s.fq" ++
            [converted_message "s.fq" "s.fq"] ++ closing))).
Proof.
  split.
  - split; [| by vm_compute]. exists read1. sample_checks.
  - split; [| by vm_compute]. exists read1_stray. sample_checks.
Qed.

(** * Further properties of the script *)

(** ** The outcomes of the validator *)

Lemma violates_not_accepted (f : gmap string node) (file : string) (r : rule) :
  violates f file r -> ~ accepted f file.
Proof.
  intros Hr Hacc.
  pose proof (check_file_violates (World f [] []) file r Hr) as H1.
  pose proof (check_file_accepted (World f [] []) file Hacc) as H2.
  congruence.
Qed.

Lemma unsniffable_not_accepted (f : gmap string node) (file : string) :
  unsniffable f file -> ~ accepted f file.
Proof.
  intros Hr Hacc.
  pose proof (check_file_unsniffable (World f [] []) file Hr) as H1.
  pose proof (check_file_accepted (World f [] []) file Hacc) as H2.
  congruence.
Qed.

Lemma argument_check_cases (files : list string) (w : world) :
  (files <> [] /\ Forall (accepted (fs w)) files /\
   argument_check files w = (Return true, w)) \/
  (exists e, argument_check files w = (SysExit 1, say w [e]) /\
     (files = [] \/ ~ Forall (accepted (fs w)) files) /\
     ((exists s, e = Print s) \/
      exists file, file ∈ files /\ unsniffable (fs w) file /\
        e = PrintExc ("Error validating " +:+ file +:+ ": ") UnicodeDecodeError)).
Proof.
  destruct files as [|file0 files0].
  { right. eexists. split; [done |]. split; [by left | left; by eexists]. }
  set (files := file0 :: files0).
  destruct (first_violation (fs w) files) as [Hall|(pre & file & post & Heq & Hpre & Hbad)].
  - left. split; [done |]. split; [done |]. by apply argument_check_accepted.
  - right.
    assert (exists e, check_file file w = (SysExit 1, say w [e]) /\
              ((exists s, e = Print s) \/
               unsniffable (fs w) file /\
               e = PrintExc ("Error validating " +:+ file +:+ ": ") UnicodeDecodeError))
      as (e & He & Hform).
    { destruct Hbad as [[r Hr]|Hraise].
      - rewrite (check_file_violates w file r) by done.
        eexists. split; [done |]. left. by eexists.
      - rewrite check_file_unsniffable by done.
        eexists. split; [done |]. by right. }
    exists e. split; [| split].
    + unfold argument_check, mbind, M_bind.
      rewrite bool_decide_eq_false_2 by done. cbn [when mret M_ret].
      rewrite Heq, for_each_check_accepted by done.
      cbn [for_each]. unfold mbind, M_bind. by rewrite He.
    + right. rewrite Heq. intros Hall. apply Forall_app in Hall as [_ Hall].
      apply Forall_cons in Hall as [Hacc _].
      destruct Hbad as [[r Hr]|Hraise];
        [by eapply violates_not_accepted | by eapply unsniffable_not_accepted].
    + destruct Hform as [Hprint|[Hraise ->]]; [by left |].
      right. exists file. split; [| done].
      rewrite Heq. apply elem_of_app. right. apply list_elem_of_here.
Qed.

Lemma validate_fastq_format_cases (w : world) (file : string) :
  validate_fastq_format file w = (Return true, w) \/
  exists e, validate_fastq_format file w = (Return false, say w [e]).
Proof.
  destruct (fs w !! file) as [n|] eqn:Hfile.
  1: destruct (is_regular n) eqn:Hreg.
  1: destruct (can_read (node_perms n)) eqn:Hread.
  1:{ rewrite (validate_fastq_format_node w file n) by done.
      destruct (lines_served n) as [|l0 [|l1 [|l2 [|l3 rest]]]];
        try (destruct (reads_through n); by eauto).
      destruct (startswith l0 "@"); cbn [negb]; eauto.
      destruct (startswith l2 "+"); cbn [negb]; eauto. }
  all: right; unfold validate_fastq_format, try_except, mbind, M_bind, open_r;
    rewrite Hfile, ?Hreg, ?Hread; eauto.
Qed.


(** X4. Without arguments the run prints the banner and the usage line
    and ends with status 1, whatever the file system and the operator. *)
Theorem no_arguments_usage (w : world) :
  run [] w =
  (1, say w (banner ++ [Print "Usage: python3 fastq2fasta.py <file1.fastq> <file2.fastq> ..."])).
Proof.
  unfold run. rewrite main_unfold. unfold argument_check, mbind, M_bind.
  rewrite bool_decide_eq_true_2 by done. cbn [when].
  unfold print, emit, sys_exit. cbn [say fs stdin stdout exit_status].
  unfold say. cbn [fs stdin stdout]. by rewrite <- app_assoc.
Qed.

(** X5. [validate_fastq_format] always returns a verdict: whatever the
    path names, nothing is raised and the process is not left; [True]
    comes with no output, [False] with one line of output, and no file is
    changed. *)
Theorem validate_fastq_format_returns (w : world) (file : string) :
  exists valid es,
    validate_fastq_format file w = (Return valid, say w es) /\
    length es = if valid then 0 else 1.
Proof.
  destruct (validate_fastq_format_cases w file) as [->|[e ->]].
  - exists true, []. by rewrite say_nil.
  - by exists false, [e].
Qed.

(** X6. When the file cannot be opened for reading, the exception of
    [open] is caught: [validate_fastq_format] prints it after
    [Error validating <file>: ] and returns [False]. *)
Theorem validate_fastq_format_open_error (w w' : world) (file : string) (e : exn) :
  open_r file w = (Raise e, w') ->
  validate_fastq_format file w =
  (Return false, say w [PrintExc ("Error validating " +:+ file +:+ ": ") e]).
Proof.
  intros Hopen.
  assert (w' = w) as ->.
  { unfold open_r in Hopen.
    destruct (fs w !! file) as [n|]; [| congruence].
    destruct (is_regular n); [destruct (can_read _) |]; congruence. }
  unfold validate_fastq_format, try_except, mbind, M_bind. by rewrite Hopen.
Qed.

Lemma validate_fastq_format_open_error_witness :
  validate_fastq_format "missing.fastq" (World home [] []) =
  (Return false,
   say (World home [] [])
     [PrintExc "Error validating missing.fastq: " (OSErr (FileNotFoundError "missing.fastq"))]).
Proof.
  exact (validate_fastq_format_open_error (World home [] []) (World home [] [])
           "missing.fastq" _ eq_refl).
Defined.

(** ** The extension check *)

Lemma str_app_inj_2 (x y a b : string) :
  x +:+ a = y +:+ b -> String.length a = String.length b -> x = y /\ a = b.
Proof.
  revert y. induction x as [|c x IH]; intros [|d y] H Hlen.
  - done.
  - apply (f_equal String.length) in H. cbn in H. rewrite str_length_app in H. lia.
  - apply (f_equal String.length) in H. cbn in H. rewrite str_length_app in H. lia.
  - injection H as -> H. destruct (IH y H Hlen) as [-> ->]. done.
Qed.

(** Two strings that are equal end in the same characters. *)
Lemma str_tail_eq (x y a1 a2 b1 b2 : string) :
  x +:+ (a1 +:+ a2) = y +:+ (b1 +:+ b2) -> String.length a2 = String.length b2 -> a2 = b2.
Proof.
  rewrite <- !str_app_assoc. intros H Hlen. by destruct (str_app_inj_2 _ _ _ _ H Hlen).
Qed.

Lemma lower_app (s t : string) : lower (s +:+ t) = lower s +:+ lower t.
Proof. induction s as [|c s IH]; [done |]. cbn. by rewrite IH. Qed.

Lemma lower_chr_LF (c : ascii) : lower_chr c = LF -> c = LF.
Proof. destruct c as [[] [] [] [] [] [] [] []]; vm_compute; intros [=]; auto. Qed.

Lemma lower_app_inv (s x y : string) :
  lower s = x +:+ y -> exists s1 s2, s = s1 +:+ s2 /\ lower s1 = x /\ lower s2 = y.
Proof.
  revert s. induction x as [|c x IH]; intros s H.
  - by exists "", s.
  - destruct s as [|d s]; [done |]. injection H as Hd H.
    destruct (IH s H) as (s1 & s2 & -> & H1 & H2).
    exists (String d s1), s2. cbn. by rewrite Hd, H1.
Qed.

Lemma lower_empty (s : string) : lower s = "" -> s = "".
Proof. by destruct s. Qed.

Lemma lower_nl (s : string) : lower s = nl -> s = nl.
Proof.
  destruct s as [|c [|? ?]]; try done. by intros [= ->%lower_chr_LF].
Qed.

(** With [re.I] a literal matches the texts that fold to what it folds to. *)
Lemma match_literal_I (lit s rest : string) :
  match_literal true lit s = Some rest <->
  exists x, s = x +:+ rest /\ lower x = lower lit.
Proof.
  revert s. induction lit as [|p lit IH]; intros s.
  - cbn. split.
    + intros [= ->]. by exists "".
    + intros (x & -> & ->%lower_empty). done.
  - destruct s as [|c s].
    + split; [done |]. intros ([|??] & ? & ?); done.
    + cbn [match_literal]. unfold chr_eq.
      destruct (Ascii.eqb_spec (lower_chr p) (lower_chr c)) as [Hpc|Hpc].
      * rewrite IH. split.
        -- intros (x & -> & Hx). exists (String c x). cbn. by rewrite Hx, Hpc.
        -- intros ([|d x] & H & Hx); [done |].
           injection H as <- ->. injection Hx as _ Hx. by exists x.
      * split; [done |]. intros ([|d x] & H & Hx); [done |].
        injection H as <- ->. injection Hx as Hd _. done.
Qed.

Lemma at_dollar_iff (s : string) : at_dollar s = true <-> s = "" \/ s = nl.
Proof.
  destruct s as [|c [|? ?]]; cbn.
  - by split; [left |].
  - destruct (Ascii.eqb_spec c LF) as [->|Hc].
    + by split; [right |].
    + split; [done |]. intros [|[=]]; done.
  - split; [done |]. intros [|]; done.
Qed.

Lemma match_here_ext (s : string) :
  is_Some (match_here true fastq_ext_re s) <->
  exists c x rest,
    s = String c (x +:+ rest) /\ lower_chr c = "."%char /\
    (lower x = "fastq" \/ lower x = "fq") /\ (rest = "" \/ rest = nl).
Proof.
  unfold fastq_ext_re. destruct s as [|c s].
  { split; [by intros [? [=]] | by intros (? & ? & ? & [=] & _)]. }
  cbn [match_here]. unfold chr_eq.
  change (lower_chr ".") with "."%char.
  destruct (Ascii.eqb_spec "."%char (lower_chr c)) as [Hc|Hc].
  2:{ split; [by intros [? [=]] |]. intros (? & ? & ? & [= <- _] & ? & _). done. }
  split.
  - intros Hsome.
    destruct (match_literal true "fastq" s) as [s1|] eqn:E1.
    + destruct (at_dollar s1) eqn:D1.
      * apply match_literal_I in E1 as (x & -> & Hx). apply at_dollar_iff in D1.
        exists c, x, s1. auto.
      * destruct (match_literal true "fq" s) as [s2|] eqn:E2; [| by destruct Hsome].
        destruct (at_dollar s2) eqn:D2; [| by destruct Hsome].
        apply match_literal_I in E2 as (x & -> & Hx). apply at_dollar_iff in D2.
        exists c, x, s2. auto.
    + destruct (match_literal true "fq" s) as [s2|] eqn:E2; [| by destruct Hsome].
      destruct (at_dollar s2) eqn:D2; [| by destruct Hsome].
      apply match_literal_I in E2 as (x & -> & Hx). apply at_dollar_iff in D2.
      exists c, x, s2. auto.
  - intros (? & x & rest & [= <- ->] & _ & Hx & Hrest%at_dollar_iff).
    assert (forall lit, lower x = lower lit ->
              match_literal true lit (x +:+ rest) = Some rest) as Hlit.
    { intros lit Hl. apply match_literal_I. by exists x. }
    destruct (match_literal true "fastq" (x +:+ rest)) as [s1|] eqn:E1.
    + destruct (at_dollar s1) eqn:D1; [done |].
      destruct Hx as [Hx|Hx].
      * rewrite (Hlit "fastq" Hx) in E1. injection E1 as <-. congruence.
      * rewrite (Hlit "fq" Hx), Hrest. done.
    + destruct Hx as [Hx|Hx]; [by rewrite (Hlit "fastq" Hx) in E1 |].
      rewrite (Hlit "fq" Hx), Hrest. done.
Qed.

(** [re.search] finds a match that starts somewhere in the string. *)
Lemma re_search_iff (flag_I : bool) (r : regex) (s : string) :
  re_search flag_I r s = true <->
  exists pre suf, s = pre +:+ suf /\ is_Some (match_here flag_I r suf).
Proof.
  induction s as [|c s IH].
  - cbn. destruct (match_here flag_I r "") eqn:E.
    + split; [| done]. intros _. exists "", "". by rewrite E.
    + split; [done |]. intros ([|??] & [|??] & [=] & H). rewrite E in H. by destruct H.
  - cbn [re_search]. destruct (match_here flag_I r (String c s)) eqn:E.
    + split; [| done]. intros _. exists "", (String c s). by rewrite E.
    + rewrite IH. split.
      * intros (pre & suf & -> & H). by exists (String c pre), suf.
      * intros ([|d pre] & suf & Heq & H).
        -- cbn in Heq. subst suf. rewrite E in H. by destruct H.
        -- injection Heq as <- ->. by exists pre, suf.
Qed.

Lemma ext_lower (ext : string) :
  (exists c x rest,
    ext = String c (x +:+ rest) /\ lower_chr c = "."%char /\
    (lower x = "fastq" \/ lower x = "fq") /\ (rest = "" \/ rest = nl)) <->
  lower ext ∈ [".fastq"; ".fq"; ".fastq" +:+ nl; ".fq" +:+ nl].
Proof.
  rewrite !elem_of_cons, elem_of_nil. split.
  - intros (c & x & rest & -> & Hc & Hx & Hrest). cbn [lower]. rewrite lower_app, Hc.
    destruct Hx as [-> | ->], Hrest as [-> | ->]; cbn; auto.
  - intros H.
    assert (exists c s, ext = String c s /\ lower_chr c = "."%char /\
              lower s ∈ ["fastq"; "fq"; "fastq" +:+ nl; "fq" +:+ nl]) as (c & s & -> & Hc & Hs).
    { destruct ext as [|c s]; [destruct H as [H|[H|[H|[H|[]]]]]; discriminate H |].
      exists c, s. split; [done |].
      rewrite !elem_of_cons, elem_of_nil.
      destruct H as [H|[H|[H|[H|[]]]]]; injection H as -> ->; auto 10. }
    exists c. rewrite !elem_of_cons, elem_of_nil in Hs.
    destruct Hs as [Hs|[Hs|[Hs|[Hs|[]]]]].
    + exists s, "". rewrite str_app_nil_r. auto.
    + exists s, "". rewrite str_app_nil_r. auto.
    + apply lower_app_inv in Hs as (x & rest & -> & Hx & ->%lower_nl). exists x, nl. auto.
    + apply lower_app_inv in Hs as (x & rest & -> & Hx & ->%lower_nl). exists x, nl. auto.
Qed.

(** X7. The extension check of [argument_check] passes exactly the names
    that end in an extension which, in lower case, reads [.fastq] or
    [.fq]; one newline may follow the extension at the very end of the
    name (Python's [$]).  Letter case is ignored in the extension, and
    nothing may follow it but that newline. *)
Theorem extension_check_iff (file : string) :
  re_search true fastq_ext_re file = true <->
  exists stem ext,
    file = stem +:+ ext /\
    lower ext ∈ [".fastq"; ".fq"; ".fastq" +:+ nl; ".fq" +:+ nl].
Proof.
  rewrite re_search_iff. by setoid_rewrite match_here_ext; setoid_rewrite ext_lower.
Qed.

(** ** Output names *)

Lemma file_name_cases (file : string) :
  (exists stem, file = stem +:+ ".fastq") \/
  (exists stem, file = stem +:+ ".fastq" +:+ nl) \/
  (endswith file ".fastq" = false /\ endswith file (".fastq" +:+ nl) = false).
Proof.
  destruct (endswith file ".fastq") eqn:H1; [left; by apply endswith_iff |].
  destruct (endswith file (".fastq" +:+ nl)) eqn:H2; [right; left; by apply endswith_iff |].
  by right; right.
Qed.

(** A name that ends in [.fasta] does not pass the extension check. *)
Lemma fasta_not_accepted (stem : string) :
  re_search true fastq_ext_re (stem +:+ ".fasta") = false /\
  re_search true fastq_ext_re (stem +:+ ".fasta" +:+ nl) = false.
Proof.
  split.
  - destruct (re_search _ _ _) eqn:E; [| done].
    apply re_search_iff in E as (pre & ext & Heq & Hext).
    apply match_here_ext, ext_lower in Hext.
    apply (f_equal lower) in Heq. rewrite !lower_app in Heq.
    rewrite !elem_of_cons, elem_of_nil in Hext.
    destruct Hext as [H|[H|[H|[H|[]]]]]; rewrite H in Heq.
    + by apply (str_tail_eq _ _ ".fast" "a" ".fast" "q") in Heq.
    + by apply (str_tail_eq _ _ ".fast" "a" ".f" "q") in Heq.
    + by apply (str_tail_eq _ _ ".fast" "a" ".fastq" nl) in Heq.
    + by apply (str_tail_eq _ _ ".fast" "a" ".fq" nl) in Heq.
  - destruct (re_search _ _ _) eqn:E; [| done].
    apply re_search_iff in E as (pre & ext & Heq & Hext).
    apply match_here_ext, ext_lower in Hext.
    apply (f_equal lower) in Heq. rewrite !lower_app in Heq.
    rewrite !elem_of_cons, elem_of_nil in Hext.
    destruct Hext as [H|[H|[H|[H|[]]]]]; rewrite H in Heq.
    + by apply (str_tail_eq _ _ ".fasta" nl ".fast" "q") in Heq.
    + by apply (str_tail_eq _ _ ".fasta" nl ".f" "q") in Heq.
    + by apply (str_tail_eq _ _ ".fast" ("a" +:+ nl) ".fast" ("q" +:+ nl)) in Heq.
    + by apply (str_tail_eq _ _ ".fast" ("a" +:+ nl) ".f" ("q" +:+ nl)) in Heq.
Qed.

(** An output path that passes the extension check is the input path. *)
Lemma output_not_an_input (file : string) :
  re_search true fastq_ext_re (out_file_of file) = true -> out_file_of file = file.
Proof.
  destruct (file_name_cases file) as [[stem ->]|[[stem ->]|[H1 H2]]].
  - rewrite out_file_of_fastq. by rewrite (proj1 (fasta_not_accepted stem)).
  - rewrite out_file_of_fastq_nl. by rewrite (proj2 (fasta_not_accepted stem)).
  - intros _. by apply out_file_of_other.
Qed.

Lemma out_file_of_inj (file1 file2 : string) :
  re_search true fastq_ext_re file1 = true ->
  re_search true fastq_ext_re file2 = true ->
  out_file_of file1 = out_file_of file2 -> file1 = file2.
Proof.
  intros Hext1 Hext2 Hout.
  destruct (file_name_cases file1) as [[s1 ->]|[[s1 ->]|[H1 H1']]];
    destruct (file_name_cases file2) as [[s2 ->]|[[s2 ->]|[H2 H2']]];
    rewrite ?out_file_of_fastq, ?out_file_of_fastq_nl in Hout;
    try (rewrite (out_file_of_other file1) in Hout by done);
    try (rewrite (out_file_of_other file2) in Hout by done).
  - by destruct (str_app_inj_2 _ _ _ _ Hout eq_refl) as [-> _].
  - by apply (str_tail_eq _ _ ".fast" "a" ".fasta" nl) in Hout.
  - rewrite <- Hout in Hext2. by rewrite (proj1 (fasta_not_accepted s1)) in Hext2.
  - by apply (str_tail_eq _ _ ".fasta" nl ".fast" "a") in Hout.
  - by destruct (str_app_inj_2 _ _ _ _ Hout eq_refl) as [-> _].
  - rewrite <- Hout in Hext2. by rewrite (proj2 (fasta_not_accepted s1)) in Hext2.
  - rewrite Hout in Hext1. by rewrite (proj1 (fasta_not_accepted s2)) in Hext1.
  - rewrite Hout in Hext1. by rewrite (proj2 (fasta_not_accepted s2)) in Hext1.
  - done.
Qed.

Lemma has_sep_app (s t : string) : has_sep (s +:+ t) = has_sep s || has_sep t.
Proof. induction s as [|c s IH]; [done |]. cbn. by rewrite IH, orb_assoc. Qed.

Lemma upto_last_sep_no_sep (t : string) : has_sep t = false -> upto_last_sep t = "".
Proof. destruct t as [|c t]; [done |]. cbn [upto_last_sep]. by intros ->. Qed.

Lemma upto_last_sep_app (s t : string) :
  has_sep t = false -> upto_last_sep (s +:+ t) = upto_last_sep s.
Proof.
  intros Ht. induction s as [|c s IH]; [by apply upto_last_sep_no_sep |].
  change (String c s +:+ t) with (String c (s +:+ t)).
  cbn [upto_last_sep has_sep]. by rewrite has_sep_app, Ht, orb_false_r, IH.
Qed.

Lemma dirname_app (s t : string) :
  has_sep t = false -> os_path_dirname (s +:+ t) = os_path_dirname s.
Proof. intros Ht. unfold os_path_dirname. by rewrite upto_last_sep_app. Qed.

(** X8. The output is placed in the directory of the input: the
    directory part of the output path is that of the input path (so the
    directory whose write permission is checked is the input's). *)
Theorem out_file_same_directory (file : string) :
  os_path_dirname (out_file_of file) = os_path_dirname file /\
  out_dir_of (out_file_of file) = out_dir_of file.
Proof.
  assert (os_path_dirname (out_file_of file) = os_path_dirname file) as H.
  { destruct (file_name_cases file) as [[stem ->]|[[stem ->]|[H1 H2]]].
    - by rewrite out_file_of_fastq, !dirname_app.
    - by rewrite out_file_of_fastq_nl, !dirname_app.
    - by rewrite out_file_of_other. }
  split; [done |]. unfold out_dir_of. by rewrite H.
Qed.

(** X9. Two different names that pass the extension check have two
    different output paths: within a batch no output is written twice. *)
Theorem outputs_distinct (file1 file2 : string) :
  re_search true fastq_ext_re file1 = true ->
  re_search true fastq_ext_re file2 = true ->
  file1 <> file2 -> out_file_of file1 <> out_file_of file2.
Proof. intros Hext1 Hext2 Hne Hout. by apply Hne, out_file_of_inj. Qed.

Lemma outputs_distinct_witness :
  "reads.fastq" <> "reads.FASTQ" /\ out_file_of "reads.fastq" <> out_file_of "reads.FASTQ".
Proof.
  split; [done |]. by apply outputs_distinct.
Defined.

(** ** The conversion loop *)

(** The header lines are written in the order of the input. *)
Lemma written_by_header_from (lines : list string) :
  forall acc n,
  written_by Header (fold_left loop_body lines (LoopState acc n)) =
  written_by Header (LoopState acc n) ++
  (imap (fun i => pair (n + i)) lines ≫=
     fun '(i, l) => if decide (i mod 4 = 0) then [">" +:+ slice_from_1 l] else []).
Proof.
  induction lines as [|line lines IH]; intros acc n.
  - simpl. by rewrite app_nil_r.
  - cbn [fold_left]. rewrite imap_cons. cbn [mbind list_bind]. rewrite Nat.add_0_r.
    assert (imap ((fun i => pair (n + i)) ∘ S) lines
            = imap (fun i => pair (n + 1 + i)) lines) as ->.
    { apply imap_ext. intros i x _. simpl. f_equal. lia. }
    destruct (Nat.eq_dec (n mod 4) 0) as [H0|H0];
      [| destruct (Nat.eq_dec (n mod 4) 1) as [H1|H1]].
    + rewrite loop_body_header, IH by done.
      rewrite decide_True by done. unfold written_by. cbn [fa].
      rewrite bind_app. simpl. by rewrite <- app_assoc.
    + rewrite loop_body_sequence, IH by done.
      rewrite decide_False by done. unfold written_by. cbn [fa].
      rewrite bind_app. simpl. by rewrite !app_nil_r.
    + rewrite loop_body_skip, IH.
      * by rewrite decide_False by done.
      * pose proof (Nat.mod_upper_bound n 4). lia.
Qed.

Lemma lines_at_map (f : string -> string) (r : nat) (lines : list string) :
  forall k,
  (imap (fun i => pair (k + i)) lines ≫=
     fun '(i, l) => if decide (i mod 4 = r) then [f l] else []) =
  map f (imap (fun i => pair (k + i)) lines ≫=
     fun '(i, l) => if decide (i mod 4 = r) then [l] else []).
Proof.
  induction lines as [|line lines IH]; intros k; [done |].
  rewrite imap_cons. cbn [mbind list_bind]. rewrite map_app.
  assert (imap ((fun i => pair (k + i)) ∘ S) lines
          = imap (fun i => pair (k + 1 + i)) lines) as ->.
  { apply imap_ext. intros i x _. simpl. f_equal. lia. }
  rewrite <- IH. by destruct (decide _).
Qed.

Lemma frames_writes (lines : list string) :
  length (frames lines ≫= fasta_of_frame) =
  2 * (length lines / 4) + Nat.min 2 (length lines mod 4).
Proof.
  induction lines as [|a|a b|a b c|a b c d rest IH] using frame_ind.
  1-4: by vm_compute.
  change (length (a :: b :: c :: d :: rest)) with (4 + length rest).
  rewrite mod4_add4.
  replace ((4 + length rest) / 4) with (1 + length rest / 4)
    by (by rewrite <- (Nat.div_add_l 1 4 (length rest))).
  cbn [frames mbind list_bind fasta_of_frame app length].
  fold (@mbind list _ _ _ fasta_of_frame (frames rest)). rewrite IH. lia.
Qed.

(** X10. For every list of lines read, the texts written by the header
    branch of the loop are, in order, the lines at the positions that are
    multiples of 4, each with [>] in place of its first character,
    whatever that character is: beyond the first record the loop does not
    look for the [@]. *)
Theorem header_lines_rewritten (lines : list string) :
  written_by Header (convert_lines lines) =
  map (fun l => ">" +:+ slice_from_1 l) (lines_at 0 lines).
Proof.
  unfold convert_lines, lines_at. rewrite written_by_header_from.
  by rewrite (lines_at_map (fun l => ">" +:+ slice_from_1 l) 0 lines 0).
Qed.

(** X11. The loop counts every line it reads, and of [n] lines it writes
    two for each complete group of four and one or two for what is left:
    [2 * (n / 4) + min 2 (n mod 4)] calls of [fa.write] in all. *)
Theorem lines_counted (lines : list string) :
  line_num (convert_lines lines) = length lines /\
  length (fa (convert_lines lines)) =
  2 * (length lines / 4) + Nat.min 2 (length lines mod 4).
Proof.
  destruct (convert_lines_frames lines) as [-> ->]. split; [done |]. apply frames_writes.
Qed.

Lemma write_output_cases (w : world) (file out_file : string) :
  (exists w', write_output file out_file w = (Return (), w') /\
     isfile (fs w') out_file = true) \/
  (exists w', write_output file out_file w = (SysExit 1, w')).
Proof.
  destruct (access can_write (fs w) (out_dir_of out_file)) eqn:Hdir.
  2:{ right. rewrite write_output_unwritable by done. eauto. }
  destruct (opens_cases w file out_file) as [(n & Hfile & Hreg & Hread & Hout)|[e He]].
  - destruct (input_read_through (fs w) file out_file) eqn:Ht.
    + left. rewrite (write_output_through w file out_file n) by done.
      eexists. split; [done |]. cbn [fs]. unfold isfile. by rewrite lookup_insert_eq.
    + right. rewrite (write_output_garbled w file out_file n) by done. eauto.
  - right. rewrite (write_output_open_failure w w file out_file _ Hdir He). eauto.
Qed.

(** A step of the loop of [fastq_to_fasta] ends in one of three ways. *)
Lemma convert_file_cases (w : world) (file : string) :
  (exists w', convert_file file w = (Return (), w') /\
     isfile (fs w') (out_file_of file) = true) \/
  (exists code w', convert_file file w = (SysExit code, w') /\ code <= 1) \/
  (exists w', convert_file file w = (Raise EOFError, w') /\ fs w' = fs w).
Proof.
  assert (forall w0,
    (exists w', write_output file (out_file_of file) w0 = (Return (), w') /\
       isfile (fs w') (out_file_of file) = true) \/
    (exists code w', write_output file (out_file_of file) w0 = (SysExit code, w') /\
       code <= 1)) as Hwrite.
  { intros w0.
    destruct (write_output_cases w0 file (out_file_of file)) as [(w' & -> & H)|[w' ->]].
    - left. by exists w'.
    - right. exists 1, w'. by split. }
  destruct (isfile (fs w) (out_file_of file)) eqn:Hout.
  - destruct (stdin w) as [|answer rest] eqn:Hin.
    + right. right. rewrite convert_file_eof by done. by eexists.
    + rewrite (convert_file_asked w file answer rest) by done.
      destruct (affirmative answer).
      * destruct (Hwrite (World (fs w) rest (stdout w ++ overwrite_warning (out_file_of file))))
          as [H|H]; auto.
      * right. left. eexists 0, _. split; [done | lia].
  - rewrite convert_file_fresh by done. destruct (Hwrite w) as [H|H]; auto.
Qed.

Lemma convert_file_asks (w : world) (file : string) :
  isfile (fs w) (out_file_of file) = true ->
  exists tail,
    stdout (convert_file file w).2 = stdout w ++ overwrite_warning (out_file_of file) ++ tail.
Proof.
  intros Hout. destruct (stdin w) as [|answer rest] eqn:Hin.
  - rewrite convert_file_eof by done. exists []. by rewrite app_nil_r.
  - rewrite (convert_file_asked w file answer rest) by done.
    destruct (affirmative answer).
    + destruct (write_output_stdout
                  (World (fs w) rest (stdout w ++ overwrite_warning (out_file_of file)))
                  file (out_file_of file)) as [tail ->].
      exists tail. cbn [stdout]. by rewrite <- app_assoc.
    + eexists. cbn [snd say stdout]. by rewrite <- app_assoc.
Qed.

(** What is a regular file before a step is one after it. *)
Lemma convert_file_isfile (w w' : world) (file p : string) :
  convert_file file w = (Return (), w') ->
  isfile (fs w) p = true -> isfile (fs w') p = true.
Proof.
  intros Hrun Hp. destruct (decide (p = out_file_of file)) as [->|Hne].
  - destruct (convert_file_cases w file)
      as [(w1 & H1 & Hout)|[(code & w1 & H1 & _)|(w1 & H1 & _)]]; congruence.
  - pose proof (convert_file_frame w file p Hne) as Hframe.
    rewrite Hrun in Hframe. cbn [snd] in Hframe. unfold isfile in *. by rewrite Hframe.
Qed.

Lemma fastq_to_fasta_exit (files : list string) (w : world) :
  exit_status (fastq_to_fasta files w).1 <= 1.
Proof.
  revert w. induction files as [|file files IH]; intros w; [simpl; lia |].
  unfold fastq_to_fasta in *. cbn [for_each]. unfold mbind, M_bind.
  destruct (convert_file_cases w file)
    as [(w' & -> & _)|[(code & w' & -> & Hcode)|(w' & -> & _)]]; [apply IH | done..].
Qed.

Lemma fastq_to_fasta_frame (files : list string) (p : string) (w : world) :
  Forall (fun file => p <> out_file_of file) files ->
  fs (fastq_to_fasta files w).2 !! p = fs w !! p.
Proof.
  intros Hp. revert w. induction Hp as [|file files Hfile _ IH]; intros w; [done |].
  unfold fastq_to_fasta in *. cbn [for_each]. unfold mbind, M_bind.
  pose proof (convert_file_frame w file p Hfile) as Hframe.
  destruct (convert_file file w) as [[[]| |] w']; [| done..].
  by rewrite IH.
Qed.

Lemma fastq_to_fasta_outputs (files : list string) (w w' : world) :
  fastq_to_fasta files w = (Return (), w') ->
  Forall (fun file => isfile (fs w') (out_file_of file) = true) files.
Proof.
  assert (forall files w w' p, fastq_to_fasta files w = (Return (), w') ->
            isfile (fs w) p = true -> isfile (fs w') p = true) as Hmono.
  { clear. induction files as [|file files IH]; intros w w' p.
    - by intros [= <-].
    - unfold fastq_to_fasta. cbn [for_each]. unfold mbind, M_bind.
      destruct (convert_file file w) as [[[]| |] w1] eqn:E; [| done..].
      intros Hrest Hp. eapply IH; [exact Hrest |]. by eapply convert_file_isfile. }
  revert w. induction files as [|file files IH]; intros w; [constructor |].
  unfold fastq_to_fasta. cbn [for_each]. unfold mbind, M_bind.
  destruct (convert_file_cases w file)
    as [(w1 & H1 & Hout)|[(code & w1 & H1 & _)|(w1 & H1 & _)]]; rewrite H1; [| done..].
  intros Hrest. constructor; [| by eapply IH].
  by eapply Hmono.
Qed.

(** X12. When one of the two [open] calls of the [with] statement fails
    (the input cannot be read, the output is a directory or a file that
    cannot be written, ...), the step prints the exception after
    [Error reading/writing <file>: ] and exits with status 1; no file is
    changed. *)
Theorem open_failure_reported (w w' : world) (file out_file : string) (e : exn) :
  access can_write (fs w) (out_dir_of out_file) = true ->
  (fq ← open_r file; open_w out_file) w = (Raise e, w') ->
  (exists err, e = OSErr err) /\ w' = w /\
  write_output file out_file w =
  (SysExit 1, say w [PrintExc ("Error reading/writing " +:+ file +:+ ": ") e]).
Proof.
  intros Hdir Hopen. split; [| split].
  - destruct (opens_cases w file out_file) as [(n & Hfile & Hreg & Hread & Hout)|[err He]].
    + unfold mbind, M_bind, open_r in Hopen.
      by rewrite Hfile, Hreg, Hread, open_w_writable in Hopen.
    + exists err. congruence.
  - destruct (opens_cases w file out_file) as [(n & Hfile & Hreg & Hread & Hout)|[err He]].
    + unfold mbind, M_bind, open_r in Hopen.
      by rewrite Hfile, Hreg, Hread, open_w_writable in Hopen.
    + congruence.
  - by eapply write_output_open_failure.
Qed.

Lemma open_failure_reported_witness :
  (exists err, OSErr (PermissionError "a.fasta") = OSErr err) /\
  World protected [] [] = World protected [] [] /\
  write_output "a.fastq" "a.fasta" (World protected [] []) =
  (SysExit 1,
   say (World protected [] [])
     [PrintExc "Error reading/writing a.fastq: " (OSErr (PermissionError "a.fasta"))]).
Proof.
  exact (open_failure_reported (World protected [] []) (World protected [] [])
           "a.fastq" "a.fasta" _ eq_refl eq_refl).
Defined.

(** X13. A step of [fastq_to_fasta] that returns normally leaves a
    regular file at the output path; converting the same input once more
    therefore prints the overwrite warning and asks, before anything
    else. *)
Theorem rerun_asks (w w' : world) (file : string) :
  convert_file file w = (Return (), w') ->
  isfile (fs w') (out_file_of file) = true /\
  exists tail,
    stdout (convert_file file w').2 = stdout w' ++ overwrite_warning (out_file_of file) ++ tail.
Proof.
  intros Hrun.
  assert (isfile (fs w') (out_file_of file) = true) as Hout.
  { destruct (convert_file_cases w file)
      as [(w1 & H1 & Hout)|[(code & w1 & H1 & _)|(w1 & H1 & _)]]; congruence. }
  split; [done |]. by apply convert_file_asks.
Qed.

Lemma rerun_asks_witness :
  isfile (fs (convert_file "a.fastq" (World home [] [])).2) (out_file_of "a.fastq") = true /\
  exists tail,
    stdout (convert_file "a.fastq" (convert_file "a.fastq" (World home [] [])).2).2 =
    stdout (convert_file "a.fastq" (World home [] [])).2 ++
    overwrite_warning (out_file_of "a.fastq") ++ tail.
Proof.
  apply (rerun_asks (World home [] [])). by vm_compute.
Defined.

(** A step that returns normally went through the directory check and
    the two [open] calls, read the input to its end and replaced the
    output. *)
Lemma write_output_inv (w w' : world) (file out_file : string) :
  write_output file out_file w = (Return (), w') ->
  exists n,
    fs w !! file = Some n /\ is_regular n = true /\ can_read (node_perms n) = true /\
    access can_write (fs w) (out_dir_of out_file) = true /\
    writable_target (fs w) out_file = true /\
    input_read_through (fs w) file out_file = true /\
    fs w' = <[out_file := File (out_perms (fs w) out_file)
                            (fasta_of (input_lines (fs w) file out_file))]> (fs w) /\
    stdin w' = stdin w.
Proof.
  intros Hrun.
  destruct (access can_write (fs w) (out_dir_of out_file)) eqn:Hdir.
  2:{ by rewrite write_output_unwritable in Hrun. }
  destruct (opens_cases w file out_file) as [(n & Hfile & Hreg & Hread & Hout)|[e He]].
  - destruct (input_read_through (fs w) file out_file) eqn:Ht.
    + rewrite (write_output_through w file out_file n) in Hrun by done.
      injection Hrun as <-. by exists n.
    + by rewrite (write_output_garbled w file out_file n) in Hrun.
  - by rewrite (write_output_open_failure w w file out_file _ Hdir He) in Hrun.
Qed.

Lemma writable_out_perms (f : gmap string node) (p : string) :
  writable_target f p = true -> can_write (out_perms f p) = true.
Proof.
  unfold writable_target, out_perms. destruct (f !! p) as [n|]; [| done].
  by intros [-> ->]%andb_prop.
Qed.

Lemma write_output_again (w w' w1 : world) (file out_file : string) :
  write_output file out_file w = (Return (), w') ->
  fs w1 = fs w' ->
  exists w2, write_output file out_file w1 = (Return (), w2) /\ fs w2 = fs w'.
Proof.
  intros (n & Hfile & Hreg & Hread & Hdir & Hopen & Hthrough & Hfs & _)%write_output_inv Hw1.
  pose proof (writable_out_perms _ _ Hopen) as Hperm.
  set (text' := fasta_of (input_lines (fs w) file out_file)) in *.
  assert (exists n1, fs w1 !! file = Some n1 /\ is_regular n1 = true /\
            can_read (node_perms n1) = true /\
            input_read_through (fs w1) file out_file = true /\
            input_lines (fs w1) file out_file = input_lines (fs w) file out_file)
    as (n1 & Hfile1 & Hreg1 & Hread1 & Hthrough1 & Hlines).
  { rewrite Hw1, Hfs. unfold input_lines, input_read_through in *.
    destruct (decide (out_file = file)) as [->|Hne].
    - rewrite lookup_insert_eq. eexists. split; [done |]. split; [done |].
      split; [| done]. cbn [node_perms]. unfold out_perms. by rewrite Hfile, Hreg.
    - rewrite lookup_insert_ne by done. exists n. by rewrite Hfile in *. }
  assert (access can_write (fs w1) (out_dir_of out_file) = true) as Hdir1.
  { rewrite Hw1, Hfs. unfold access in *.
    destruct (decide (out_file = out_dir_of out_file)) as [<-|Hne].
    - by rewrite lookup_insert_eq.
    - by rewrite lookup_insert_ne. }
  assert (fs w1 !! out_file = Some (File (out_perms (fs w) out_file) text')) as Hout1.
  { by rewrite Hw1, Hfs, lookup_insert_eq. }
  assert (writable_target (fs w1) out_file = true) as Hopen1.
  { unfold writable_target. rewrite Hout1. by cbn [is_regular node_perms andb]. }
  rewrite (write_output_through w1 file out_file n1) by done.
  eexists. split; [done |]. cbn [fs]. rewrite Hlines. fold text'.
  unfold out_perms at 1. rewrite Hout1, Hw1, Hfs. cbn [is_regular node_perms].
  by rewrite insert_insert_eq.
Qed.

Lemma convert_file_inv (w w' : world) (file : string) :
  convert_file file w = (Return (), w') ->
  exists w0, fs w0 = fs w /\ write_output file (out_file_of file) w0 = (Return (), w').
Proof.
  destruct (isfile (fs w) (out_file_of file)) eqn:Hout.
  - destruct (stdin w) as [|answer rest] eqn:Hin.
    + by rewrite convert_file_eof.
    + rewrite (convert_file_asked w file answer rest) by done.
      destruct (affirmative answer); [| done]. intros H.
      eexists. split; [| exact H]. done.
  - rewrite convert_file_fresh by done. intros H. by exists w.
Qed.

(** X14. Conversion is idempotent: when a step has returned normally and
    the same input is converted once more, with [y] or [yes] as the answer
    to the question, the step returns normally again and leaves every
    file as the first conversion left it. *)
Theorem reconversion_idempotent
    (w w' : world) (file answer : string) (rest : list string) :
  convert_file file w = (Return (), w') ->
  stdin w' = answer :: rest -> answer ∈ yes_answers ->
  exists w'', convert_file file w' = (Return (), w'') /\ fs w'' = fs w' /\ stdin w'' = rest.
Proof.
  intros (w0 & Hw0 & Hrun)%convert_file_inv Hin Hyes.
  assert (isfile (fs w') (out_file_of file) = true) as Hout.
  { apply write_output_inv in Hrun as (_ & _ & _ & _ & _ & _ & _ & -> & _).
    unfold isfile. by rewrite lookup_insert_eq. }
  rewrite (convert_file_asked w' file answer rest) by done.
  rewrite (proj2 (affirmative_yes_answers answer)) by done.
  destruct (write_output_again w0 w'
              (World (fs w') rest (stdout w' ++ overwrite_warning (out_file_of file)))
              file (out_file_of file) Hrun eq_refl) as (w2 & Hrun2 & Hfs2).
  exists w2. split; [done |]. split; [done |].
  by apply write_output_inv in Hrun2 as (_ & _ & _ & _ & _ & _ & _ & _ & ->).
Qed.

Lemma reconversion_idempotent_witness :
  exists w'',
    convert_file "a.fastq" (convert_file "a.fastq" (World home ["y"] [])).2 =
    (Return (), w'') /\
    fs w'' = fs (convert_file "a.fastq" (World home ["y"] [])).2 /\
    stdin w'' = [].
Proof.
  apply (reconversion_idempotent (World home ["y"] []) _ "a.fastq" "y" []).
  - by vm_compute.
  - done.
  - apply y_is_yes.
Defined.

(** X15. [fastq_to_fasta] leaves alone every file whose name passes the
    extension check and that is not one of its arguments: the only FASTQ
    file a step can write to is its own input. *)
Theorem other_fastq_kept (files : list string) (p : string) (w : world) :
  re_search true fastq_ext_re p = true -> p ∉ files ->
  fs (fastq_to_fasta files w).2 !! p = fs w !! p.
Proof.
  intros Hext Hp. apply fastq_to_fasta_frame.
  apply Forall_forall. intros file Hfile ->.
  apply output_not_an_input in Hext. by rewrite Hext in Hp.
Qed.

Lemma other_fastq_kept_witness :
  fs (fastq_to_fasta ["sample.fq"] (World home ["y"] [])).2 !! "a.fastq" = home !! "a.fastq".
Proof.
  apply (other_fastq_kept ["sample.fq"] "a.fastq" (World home ["y"] [])); [done |].
  by intros [=]%list_elem_of_singleton.
Defined.

(** ** Whole runs *)

(** X16. With an existing output and no answer left on the standard
    input, the question raises [EOFError], which nothing catches: a run on
    accepted files ends with status 1 after the warning and the prompt,
    and no file is changed. *)
Theorem prompt_at_end_of_input (w : world) (file : string) (later : list string) :
  Forall (accepted (fs w)) (file :: later) ->
  isfile (fs w) (out_file_of file) = true -> stdin w = [] ->
  run (file :: later) w = (1, say w (banner ++ overwrite_warning (out_file_of file))).
Proof.
  intros Hall Hout Hin. unfold run. rewrite main_unfold.
  rewrite argument_check_accepted by done.
  unfold fastq_to_fasta. cbn [for_each]. unfold mbind, M_bind.
  rewrite convert_file_eof by done. by rewrite say_say.
Qed.

Lemma prompt_at_end_of_input_witness :
  run ["a.fastq"] (World crowded [] []) =
  (1, say (World crowded [] []) (banner ++ overwrite_warning (out_file_of "a.fastq"))).
Proof.
  apply (prompt_at_end_of_input (World crowded [] []) "a.fastq" []); [| done..].
  repeat constructor. exists read1. sample_checks.
Defined.

(** X17. The exit status of a run is 0 or 1, whatever the arguments, the
    file system and the operator. *)
Theorem exit_status_0_or_1 (files : list string) (w : world) :
  (run files w).1 = 0 \/ (run files w).1 = 1.
Proof.
  unfold run. rewrite main_unfold.
  destruct (argument_check_cases files (say w banner)) as [(_ & _ & ->)|(line & -> & _)];
    [| by right].
  pose proof (fastq_to_fasta_exit files (say w banner)) as H.
  destruct (fastq_to_fasta files (say w banner)) as [[[]| |] w2]; simpl in *; lia.
Qed.

(** X18. A run changes nothing in the file system but the output paths of
    its arguments: every other path holds after the run what it held
    before, however the run ends. *)
Theorem run_frame (files : list string) (p : string) (w : world) :
  Forall (fun file => p <> out_file_of file) files ->
  fs (run files w).2 !! p = fs w !! p.
Proof.
  intros Hp. unfold run. rewrite main_unfold.
  destruct (argument_check_cases files (say w banner)) as [(_ & _ & ->)|(line & -> & _)];
    [| done].
  pose proof (fastq_to_fasta_frame files p (say w banner) Hp) as H.
  by destruct (fastq_to_fasta files (say w banner)) as [[[]| |] w2].
Qed.

Lemma run_frame_witness :
  fs (run ["a.fastq"; "b.fastq"] (World home [] [])).2 !! "a.fastq" = home !! "a.fastq".
Proof.
  refine (run_frame ["a.fastq"; "b.fastq"] "a.fastq" (World home [] []) _).
  repeat constructor; by vm_compute.
Defined.

(** X19. When the script reaches its end, so that the closing lines with
    [All conversions completed successfully!] are printed, there was at
    least one argument, every argument was accepted by the validator, and
    every output path holds a regular file. *)
Theorem success_message_sound (files : list string) (w w' : world) :
  main files w = (Return (), w') ->
  files <> [] /\ Forall (accepted (fs w)) files /\
  Forall (fun file => isfile (fs w') (out_file_of file) = true) files /\
  exists w1, w' = say w1 closing.
Proof.
  rewrite main_unfold.
  destruct (argument_check_cases files (say w banner)) as [(Hne & Hall & ->)|(line & -> & _)];
    [| done].
  destruct (fastq_to_fasta files (say w banner)) as [[[]| |] w2] eqn:E; [| done..].
  intros [= <-]. split; [done |]. split; [done |].
  split; [| by exists w2]. by apply (fastq_to_fasta_outputs files _ _ E).
Qed.

Lemma success_message_sound_witness :
  ["a.fastq"] <> [] /\ Forall (accepted home) ["a.fastq"] /\
  Forall (fun file => isfile (fs (main ["a.fastq"] (World home [] [])).2) (out_file_of file) = true)
    ["a.fastq"] /\
  exists w1, (main ["a.fastq"] (World home [] [])).2 = say w1 closing.
Proof.
  apply (success_message_sound ["a.fastq"] (World home [] [])). by vm_compute.
Defined.

(** ** Runs that do not involve the operator *)

Lemma unattended_ret {A : Type} (a : A) : unattended (mret a).
Proof. done. Qed.

Lemma unattended_bind {A B : Type} (m : M A) (k : A -> M B) :
  unattended m -> (forall a, unattended (k a)) -> unattended (m ≫= k).
Proof.
  intros Hm Hk w answers. unfold mbind, M_bind. rewrite Hm.
  destruct (m w) as [[a| |] w1]; cbn [fst snd]; [apply Hk | done..].
Qed.

Lemma unattended_try_except {A : Type} (m : M A) (h : exn -> M A) :
  unattended m -> (forall e, unattended (h e)) -> unattended (try_except m h).
Proof.
  intros Hm Hh w answers. unfold try_except. rewrite Hm.
  destruct (m w) as [[a| |] w1]; cbn [fst snd]; [done.. | apply Hh].
Qed.

Lemma unattended_when (b : bool) (m : M unit) : unattended m -> unattended (when b m).
Proof. destruct b; [done | intros _; apply unattended_ret]. Qed.

Lemma unattended_for_each {A : Type} (xs : list A) (body : A -> M unit) :
  (forall x, unattended (body x)) -> unattended (for_each xs body).
Proof.
  intros Hbody. induction xs as [|x xs IH]; [apply unattended_ret |].
  cbn [for_each]. by apply unattended_bind.
Qed.

Lemma unattended_emit (e : event) : unattended (emit e).
Proof. done. Qed.

Lemma unattended_sys_exit {A : Type} (code : nat) : unattended (@sys_exit A code).
Proof. done. Qed.

Lemma unattended_open_r (p : string) : unattended (open_r p).
Proof.
  intros w answers. unfold open_r. cbn [fs with_stdin].
  destruct (fs w !! p) as [n|]; [| done].
  destruct (is_regular n); [destruct (can_read _) |]; done.
Qed.

Lemma unattended_open_w (p : string) : unattended (open_w p).
Proof.
  intros w answers. unfold open_w. cbn [fs with_stdin].
  destruct (fs w !! p) as [n|].
  - destruct (is_regular n); [destruct (can_write _) |]; done.
  - destruct (fs w !! _) as [d|]; [| done].
    destruct (is_regular d); [| destruct (can_write _)]; done.
Qed.

Lemma unattended_readlines (p : string) : unattended (readlines p).
Proof.
  intros w answers. unfold readlines. cbn [fs with_stdin].
  by destruct (fs w !! p) as [n|].
Qed.

Lemma unattended_read_on (p : string) : unattended (read_on p).
Proof.
  intros w answers. unfold read_on. cbn [fs with_stdin].
  destruct (fs w !! p) as [n|]; [| done]. by destruct (reads_through n).
Qed.

Lemma unattended_with_close {A : Type} (body : M A) (close : M unit) :
  unattended body -> unattended close -> unattended (with_close body close).
Proof.
  intros Hbody Hclose w answers. unfold with_close, mbind, M_bind. rewrite Hbody.
  destruct (body w) as [[a| |] w1]; cbn [fst snd]; rewrite Hclose;
    by destruct (close w1) as [[[]| |] w2].
Qed.

Lemma unattended_flush_close (p text : string) : unattended (flush_close p text).
Proof.
  intros w answers. unfold flush_close. cbn [fs with_stdin].
  by destruct (fs w !! p) as [[m data|m|m before after]|].
Qed.

Lemma unattended_getsize (p : string) : unattended (os_path_getsize p).
Proof.
  intros w answers. unfold os_path_getsize. cbn [fs with_stdin].
  by destruct (fs w !! p) as [n|].
Qed.

(** Everything but [input] is [unattended], and so is what is built from
    such parts. *)
Ltac unattended :=
  repeat first
    [ match goal with H : context [unattended _] |- _ => apply H end
    | apply unattended_bind; [| intros ?]
    | apply unattended_try_except; [| intros ?]
    | apply unattended_when
    | apply unattended_for_each; intros ?
    | apply unattended_ret
    | apply unattended_emit
    | apply unattended_sys_exit
    | apply unattended_open_r
    | apply unattended_open_w
    | apply unattended_readlines
    | apply unattended_read_on
    | apply unattended_with_close
    | apply unattended_flush_close
    | apply unattended_getsize
    | done
    | match goal with
      | |- unattended (let '(_, _) := ?p in _) => destruct p
      | |- unattended (if ?b then _ else _) => destruct b
      | |- unattended (match ?e with _ => _ end) => destruct e
      end ].

















(** * The scenarios of the specification *)

Example scenario_one_record :
  (run ["a.fastq"] (World home [] [])).1 = 0 /\
  file_text (fs (run ["a.fastq"] (World home [] [])).2) "a.fasta" =
    Some (">r1" +:+ nl +:+ "ACGT" +:+ nl).
Proof. by vm_compute. Qed.

Example scenario_stray_header :
  (run ["b.fastq"] (World home [] [])).1 = 0 /\
  file_text (fs (run ["b.fastq"] (World home [] [])).2) "b.fasta" =
    Some (">r1" +:+ nl +:+ "ACGT" +:+ nl +:+ ">r2" +:+ nl) /\
  incomplete_warning "b.fastq" 5 ∈ stdout (run ["b.fastq"] (World home [] [])).2.
Proof.
  split; [by vm_compute |]. split; [by vm_compute |].
  vm_compute. do 5 apply list_elem_of_further. apply list_elem_of_here.
Qed.

Example scenario_batch_rejected :
  run ["bad.fastq"; "a.fastq"] (World home [] []) =
  (1, World home [] (banner ++ [Print (diagnostic "bad.fastq" MissingSeparatorMarker)])).
Proof. by vm_compute. Qed.

Example scenario_no_arguments :
  run [] (World home [] []) =
  (1, World home []
        (banner ++ [Print "Usage: python3 fastq2fasta.py <file1.fastq> <file2.fastq> ..."])).
Proof. by vm_compute. Qed.

Example out_file_of_samples :
  out_file_of "sample.fastq" = "sample.fasta" /\
  out_file_of "reads/run1.fastq.fastq" = "reads/run1.fastq.fasta" /\
  out_file_of "sample.fq" = "sample.fq" /\
  out_file_of "SAMPLE.FASTQ" = "SAMPLE.FASTQ".
Proof. by vm_compute. Qed.

Example extensions_accepted :
  re_search true fastq_ext_re "SAMPLE.FASTQ" = true /\
  re_search true fastq_ext_re "sample.Fq" = true /\
  re_search true fastq_ext_re "sample.fastq" = true /\
  re_search true fastq_ext_re "sample.fasta" = false /\
  re_search true fastq_ext_re "sample.txt" = false /\
  re_search true fastq_ext_re "sample.fastq.gz" = false.
Proof. by vm_compute. Qed.

Example dirname_samples :
  os_path_dirname "/data/run//a.fastq" = "/data/run" /\
  os_path_dirname "a.fastq" = "" /\
  os_path_dirname "/a.fastq" = "/" /\
  out_dir_of "a.fasta" = ".".
Proof. by vm_compute. Qed.
